(** * Replication layer of the distributed whiteboard

    A shallow embedding of [scripts/services/RedisAdapter.js] and
    [scripts/services/RedisWhiteboardService.js], and the properties of
    the replication and state-reconciliation layer proved about it.

    JavaScript objects that the code uses as structs become records,
    the objects it uses as dictionaries become [gmap]s, arrays become
    lists, and every method becomes a computation in a small state and
    exception monad over the state of one node. *)

From stdpp Require Import gmap strings list.
From Stdlib Require Import ZArith Lia DecimalString.

Open Scope Z_scope.
Open Scope nat_scope.

(* ===================================================================== *)
(** ** JavaScript values that occur in the payloads *)
(* ===================================================================== *)

(** Primitive JSON values found inside the payload array [d] of an
    action.  A number stands for a finite double; on finite doubles [===]
    is plain equality, which is all the code uses. *)
Inductive jsval :=
  | JNull
  | JBool (b : bool)
  | JNum (z : Z)
  | JStr (s : string).

#[global] Instance jsval_eq_dec : EqDecision jsval.
Proof. solve_decision. Defined.

(** One drawing action, the object called [content] in the service.  The
    fields are the properties the code reads: ["wid"], ["t"],
    ["username"], ["drawId"] and ["d"].  [None] is a property that is
    absent, read as [undefined].  [act_rest] holds the remaining
    tool-specific properties (colour, thickness, ...), which the service
    only copies. *)
Record Action := mkAction {
  act_wid : option string;
  act_t : option string;
  act_username : option string;
  act_drawId : option string;
  act_d : option (list jsval);
  act_rest : list (string * jsval)
}.

#[global] Instance Action_eq_dec : EqDecision Action.
Proof. solve_decision. Defined.

(** The object handed to [publishEvent], which is also the message a
    subscriber receives after the JSON round trip. *)
Record Event := mkEvent {
  ev_type : string;
  ev_wid : option string;
  ev_tool : option string;
  ev_data : option (list Action);
  ev_content : option Action;
  ev_nodeId : option string;
  ev_timestamp : option Z
}.

#[global] Instance Event_eq_dec : EqDecision Event.
Proof. solve_decision. Defined.

(** A callback is an opaque JavaScript function: it is identified by a
    number, and calling it is recorded in the trace [calls] of the node. *)
Definition handler := nat.

(** [ToString] of a property key or of the right operand of [+]: the
    value [undefined] becomes the string ["undefined"]. *)
Definition to_key (wid : option string) : string :=
  match wid with
  | Some s => s
  | None => "undefined"
  end.

(** Truthiness of a string-or-undefined value, as in [&& message.wid]. *)
Definition truthy_str (s : option string) : bool :=
  match s with
  | Some s => negb (String.eqb s EmptyString)
  | None => false
  end.

(** Strict equality [===] on values that are strings or [undefined]. *)
Definition seq_str (a b : option string) : bool := bool_decide (a = b).

(** Strict equality on payload entries, where [None] is [undefined]. *)
Definition seq_val (a b : option jsval) : bool := bool_decide (a = b).

(* ===================================================================== *)
(** ** State of a node *)
(* ===================================================================== *)

(** What a key of the Redis server holds: a string value (with the
    expiry it was written with) or a list.  Values are kept parsed: the
    adapter serialises with [JSON.stringify] on the way in and parses
    with [JSON.parse] on the way out, which is the identity on the
    values above. *)
Inductive entry :=
  | EString (v : jsval) (ttl : option Z)
  | EList (items : list Action).

(** The two connections created by [createClient] and [duplicate],
    together with the server they talk to.  [link_up] says whether a
    command sent on them resolves ([true]) or rejects ([false]).
    [listeners] is the subscriber connection's table of channel
    listeners: the client keeps every listener it was given for a
    channel until it is unsubscribed, and calls all of them for a
    message on that channel.  [published] is the log of the messages
    sent with [PUBLISH]. *)
Record RedisClient := mkClient {
  link_up : bool;
  db : gmap string entry;
  listeners : gmap string (list handler);
  published : list (string * Event)
}.

(** [class RedisAdapter]: [isConnected] and the [handlers] map. *)
Record RedisAdapter := mkAdapter {
  client : RedisClient;
  isConnected : bool;
  handlers : gmap string handler
}.

(** [class RedisWhiteboardService]. *)
Record RedisWhiteboardService := mkService {
  localCache : gmap string (list Action);
  nodeId : string;
  eventHandlers : list handler
}.

(** One node: the two singletons, the clock read by [Date.now()], and
    the trace of callback invocations. *)
Record World := mkWorld {
  redisAdapter : RedisAdapter;
  service : RedisWhiteboardService;
  now : Z;
  calls : list (handler * Event)
}.

Definition with_client (f : RedisClient → RedisClient) (w : World) : World :=
  let a := redisAdapter w in
  mkWorld (mkAdapter (f (client a)) (isConnected a) (handlers a))
          (service w) (now w) (calls w).

Definition with_db (f : gmap string entry → gmap string entry) : World → World :=
  with_client (λ c, mkClient (link_up c) (f (db c)) (listeners c) (published c)).

Definition with_listeners
    (f : gmap string (list handler) → gmap string (list handler)) : World → World :=
  with_client (λ c, mkClient (link_up c) (db c) (f (listeners c)) (published c)).

Definition with_published
    (f : list (string * Event) → list (string * Event)) : World → World :=
  with_client (λ c, mkClient (link_up c) (db c) (listeners c) (f (published c))).

Definition with_handlers (f : gmap string handler → gmap string handler)
    (w : World) : World :=
  let a := redisAdapter w in
  mkWorld (mkAdapter (client a) (isConnected a) (f (handlers a)))
          (service w) (now w) (calls w).

Definition with_localCache
    (f : gmap string (list Action) → gmap string (list Action)) (w : World) : World :=
  let s := service w in
  mkWorld (redisAdapter w)
          (mkService (f (localCache s)) (nodeId s) (eventHandlers s))
          (now w) (calls w).

Definition with_eventHandlers (f : list handler → list handler) (w : World) : World :=
  let s := service w in
  mkWorld (redisAdapter w)
          (mkService (localCache s) (nodeId s) (f (eventHandlers s)))
          (now w) (calls w).

Definition with_calls (f : list (handler * Event) → list (handler * Event))
    (w : World) : World :=
  mkWorld (redisAdapter w) (service w) (now w) (f (calls w)).

(* ===================================================================== *)
(** ** The monad of methods *)
(* ===================================================================== *)

(** How a call ends: it returns a value, or it throws.  An [await]ed
    promise that rejects is a throw at the [await]. *)
Inductive completion (A : Type) :=
  | Normal (a : A)
  | Throw.
Arguments Normal {A} a.
Arguments Throw {A}.

(** A method is a function of the node's state; the state it leaves
    behind is returned also when it throws.  Handlers of one node never
    run concurrently, so a method is modelled as running to its end. *)
Definition M (A : Type) : Type := World → completion A * World.

Definition ret {A} (a : A) : M A := λ w, (Normal a, w).

Definition throw {A} : M A := λ w, (Throw, w).

Definition bind {A B} (m : M A) (k : A → M B) : M B :=
  λ w, match m w with
       | (Normal a, w') => k a w'
       | (Throw, w') => (Throw, w')
       end.

(** [try { m } catch (error) { h }] *)
Definition try_catch {A} (m : M A) (h : M A) : M A :=
  λ w, match m w with
       | (Normal a, w') => (Normal a, w')
       | (Throw, w') => h w'
       end.

Definition gets {A} (f : World → A) : M A := λ w, (Normal (f w), w).

Definition modify (f : World → World) : M unit := λ w, (Normal tt, f w).

Declare Scope js_scope.
Delimit Scope js_scope with js.
Notation "'let*' x ':=' m 'in' k" := (bind m (λ x, k))
  (at level 10, x name, m at level 100, k at level 200,
   format "'[v' 'let*'  x  ':='  m  'in' '/' k ']'") : js_scope.
Notation "'do' m 'then' k" := (bind m (λ _, k))
  (at level 10, m at level 100, k at level 200,
   format "'[v' 'do'  m  'then' '/' k ']'") : js_scope.
Open Scope js_scope.

(** The state a computation leaves, and the value it returns. *)
Definition exec {A} (m : M A) (w : World) : World := snd (m w).
Definition result {A} (m : M A) (w : World) : completion A := fst (m w).

(* ===================================================================== *)
(** ** Commands of the Redis client *)
(* ===================================================================== *)

(** The commands the adapter sends through [this.publisher] and
    [this.subscriber].  A command rejects when the link is down, and
    when it is applied to a key that holds the other kind of value. *)
Module Client.

Definition command {A} (body : M A) : M A :=
  let* up := gets (λ w, link_up (client (redisAdapter w))) in
  if up then body else throw.

Definition lookup (key : string) : M (option entry) :=
  gets (λ w, db (client (redisAdapter w)) !! key).

(** [publisher.publish(channel, serialized)] *)
Definition publish (channel : string) (message : Event) : M unit :=
  command (modify (with_published (λ log, log ++ [(channel, message)]))).

(** [subscriber.subscribe(channel, listener)]: the client of the [redis]
    package adds the listener to the ones the connection already has for
    the channel; a listener leaves only through [unsubscribe]. *)
Definition subscribe (channel : string) (listener : handler) : M unit :=
  command (modify (with_listeners (λ ls,
    <[channel := default [] (ls !! channel) ++ [listener]]> ls))).

(** [subscriber.unsubscribe(channel)]: all the listeners of the channel
    are dropped. *)
Definition unsubscribe (channel : string) : M unit :=
  command (modify (with_listeners (λ ls, delete channel ls))).

(** [publisher.set(key, serialized)] *)
Definition set (key : string) (value : jsval) : M unit :=
  command (modify (with_db (λ m, <[key := EString value None]> m))).

(** [publisher.setEx(key, ttl, serialized)]: the server refuses an
    expiry that is not positive. *)
Definition setEx (key : string) (ttl : Z) (value : jsval) : M unit :=
  command (if bool_decide (0 < ttl)%Z
           then modify (with_db (λ m, <[key := EString value (Some ttl)]> m))
           else throw).

(** [publisher.get(key)]: the stored string, or [null]. *)
Definition get (key : string) : M (option jsval) :=
  command (let* e := lookup key in
           match e with
           | None => ret None
           | Some (EString v _) => ret (Some v)
           | Some (EList _) => throw
           end).

(** [publisher.del(key)] *)
Definition del (key : string) : M unit :=
  command (modify (with_db (λ m, delete key m))).

(** [publisher.rPush(key, items)] *)
Definition rPush (key : string) (items : list Action) : M unit :=
  command (let* e := lookup key in
           match e with
           | None => modify (with_db (λ m, <[key := EList items]> m))
           | Some (EList old) =>
               modify (with_db (λ m, <[key := EList (old ++ items)]> m))
           | Some (EString _ _) => throw
           end).

(** [publisher.lRange(key, 0, -1)] *)
Definition lRange (key : string) : M (list Action) :=
  command (let* e := lookup key in
           match e with
           | None => ret []
           | Some (EList items) => ret items
           | Some (EString _ _) => throw
           end).

(** A message arriving on [channel]: the subscriber connection calls
    every listener it holds for the channel, in the order they were
    added.  The listener built by [RedisAdapter.subscribe] parses the
    message and calls the handler it was created for. *)
Definition deliver (channel : string) (message : Event) : M unit :=
  let* ls := gets (λ w, default [] (listeners (client (redisAdapter w)) !! channel)) in
  modify (with_calls (λ tr, tr ++ map (λ h, (h, message)) ls)).

End Client.

(* ===================================================================== *)
(** ** RedisAdapter.js *)
(* ===================================================================== *)

Module RedisAdapter.

(** [isReady()] *)
Definition isReady : M bool := gets (λ w, isConnected (redisAdapter w)).

(** [publish(channel, message)] *)
Definition publish (channel : string) (message : Event) : M bool :=
  let* connected := isReady in
  if negb connected then ret false
  else try_catch (do Client.publish channel message then ret true)
                 (ret false).

(** [subscribe(channel, handler)]: the [handlers] map is written before
    the subscription is awaited. *)
Definition subscribe (channel : string) (h : handler) : M bool :=
  let* connected := isReady in
  if negb connected then ret false
  else try_catch (do modify (with_handlers (λ hs, <[channel := h]> hs)) then
                  do Client.subscribe channel h then
                  ret true)
                 (ret false).

(** [unsubscribe(channel)] *)
Definition unsubscribe (channel : string) : M bool :=
  let* connected := isReady in
  if negb connected then ret false
  else try_catch (do Client.unsubscribe channel then
                  do modify (with_handlers (λ hs, delete channel hs)) then
                  ret true)
                 (ret false).

(** [set(key, value, ttl = null)]; [if (ttl)] is false for [null] and
    for [0]. *)
Definition set (key : string) (value : jsval) (ttl : option Z) : M bool :=
  let* connected := isReady in
  if negb connected then ret false
  else try_catch (do match ttl with
                     | Some n => if bool_decide (n = 0%Z) then Client.set key value
                                 else Client.setEx key n value
                     | None => Client.set key value
                     end then
                  ret true)
                 (ret false).

(** [get(key)]: [None] is [null]. *)
Definition get (key : string) : M (option jsval) :=
  let* connected := isReady in
  if negb connected then ret None
  else try_catch (Client.get key) (ret None).

(** [delete(key)] *)
Definition delete (key : string) : M bool :=
  let* connected := isReady in
  if negb connected then ret false
  else try_catch (do Client.del key then ret true) (ret false).

(** [listPush(key, value)] *)
Definition listPush (key : string) (value : Action) : M bool :=
  let* connected := isReady in
  if negb connected then ret false
  else try_catch (do Client.rPush key [value] then ret true) (ret false).

(** [listGetAll(key)] *)
Definition listGetAll (key : string) : M (list Action) :=
  let* connected := isReady in
  if negb connected then ret []
  else try_catch (Client.lRange key) (ret []).

(** [listReplace(key, items)] *)
Definition listReplace (key : string) (items : list Action) : M bool :=
  let* connected := isReady in
  if negb connected then ret false
  else try_catch (do Client.del key then
                  do (if bool_decide (0 < length items)
                      then Client.rPush key items
                      else ret tt) then
                  ret true)
                 (ret false).

End RedisAdapter.

(* ===================================================================== *)
(** ** RedisWhiteboardService.js *)
(* ===================================================================== *)

Definition WHITEBOARD_PREFIX : string := "whiteboard:data:".
Definition UNDO_PREFIX : string := "whiteboard:undo:".
Definition CHANNEL_WHITEBOARD_EVENTS : string := "whiteboard:events".

(** A value that either is there or was thrown on the way, as a method. *)
Definition lift {A} (c : completion A) : M A := λ w, (c, w).

(** [this.localCache[key] = value], where [None] is the value
    [undefined].  The service reads the cache only as
    [this.localCache[wid]], for which a property holding [undefined] and
    an absent property are the same, so that assignment is a removal. *)
Definition cache_assign (key : string) (value : option (list Action))
    (cache : gmap string (list Action)) : gmap string (list Action) :=
  match value with
  | Some board => <[key := board]> cache
  | None => delete key cache
  end.

(** [this.localCache[wid]] *)
Definition cache_read (wid : option string) : M (option (list Action)) :=
  gets (λ w, localCache (service w) !! to_key wid).

(** [handleRemoteEvent(message)].  The registered handlers are called in
    the order of [eventHandlers]. *)
Definition handleRemoteEvent (message : Event) : M unit :=
  let* self := gets (λ w, nodeId (service w)) in
  if seq_str (ev_nodeId message) (Some self) then ret tt
  else
    do (if String.eqb (ev_type message) "update" && truthy_str (ev_wid message)
        then modify (with_localCache
                       (cache_assign (to_key (ev_wid message)) (ev_data message)))
        else if String.eqb (ev_type message) "clear" && truthy_str (ev_wid message)
        then modify (with_localCache (delete (to_key (ev_wid message))))
        else ret tt) then
    let* hs := gets (λ w, eventHandlers (service w)) in
    modify (with_calls (λ tr, tr ++ map (λ h, (h, message)) hs)).

(** [onRemoteEvent(handler)] *)
Definition onRemoteEvent (h : handler) : M unit :=
  modify (with_eventHandlers (λ hs, hs ++ [h])).

(** [loadStoredData(wid)].  An array, also an empty one, is truthy. *)
Definition loadStoredData (wid : option string) : M (list Action) :=
  let* cached := cache_read wid in
  match cached with
  | Some board => ret board
  | None =>
      let* ready := RedisAdapter.isReady in
      let* found :=
        (if ready then
           let* data := RedisAdapter.listGetAll (WHITEBOARD_PREFIX +:+ to_key wid) in
           if bool_decide (0 < length data)
           then do modify (with_localCache <[to_key wid := data]>) then
                ret (Some data)
           else ret None
         else ret None) in
      match found with
      | Some data => ret data
      | None =>
          do modify (with_localCache <[to_key wid := []]>) then
          ret []
      end
  end.

(** [isDrawingTool(tool)] *)
Definition isDrawingTool (tool : option string) : bool :=
  bool_decide (tool ∈ (Some <$>
    ["line"; "pen"; "rect"; "circle"; "eraser"; "addImgBG"; "recSelect";
     "eraseRec"; "addTextBox"; "setTextboxText"; "removeTextbox";
     "setTextboxPosition"; "setTextboxFontSize"; "setTextboxFontColor"]%string)).

(** [saveToDB(wid)] *)
Definition saveToDB (wid : option string) : M unit :=
  let* ready := RedisAdapter.isReady in
  if negb ready then ret tt
  else
    let* data := cache_read wid in
    match data with
    | Some data =>
        do RedisAdapter.listReplace (WHITEBOARD_PREFIX +:+ to_key wid) data then
        ret tt
    | None => ret tt
    end.

(** [publishEvent(event)] *)
Definition publishEvent (event : Event) : M unit :=
  let* ready := RedisAdapter.isReady in
  if negb ready then ret tt
  else
    let* self := gets (λ w, nodeId (service w)) in
    let* time := gets now in
    do RedisAdapter.publish CHANNEL_WHITEBOARD_EVENTS
         (mkEvent (ev_type event) (ev_wid event) (ev_tool event) (ev_data event)
                  (ev_content event) (Some self) (Some time)) then
    ret tt.

(** [x["d"][0]]: reading index 0 of [undefined] throws a TypeError;
    index 0 of an empty array is [undefined]. *)
Definition index0 (d : option (list jsval)) : completion (option jsval) :=
  match d with
  | None => Throw
  | Some l => Normal (head l)
  end.

(** The callback of [savedBoard.filter] in [saveDrawingAction]:
    [!(item["t"] === "setTextboxText" && item["d"][0] === content["d"][0])]. *)
Definition keep_item (content item : Action) : completion bool :=
  if seq_str (act_t item) (Some "setTextboxText"%string) then
    match index0 (act_d item) with
    | Throw => Throw
    | Normal a =>
        match index0 (act_d content) with
        | Throw => Throw
        | Normal b => Normal (negb (seq_val a b))
        end
    end
  else Normal true.

(** [Array.prototype.filter] with a callback that may throw. *)
Fixpoint filter_board (keep : Action → completion bool) (board : list Action)
    : completion (list Action) :=
  match board with
  | [] => Normal []
  | item :: rest =>
      match keep item with
      | Throw => Throw
      | Normal b =>
          match filter_board keep rest with
          | Throw => Throw
          | Normal rest' => Normal (if b then item :: rest' else rest')
          end
      end
  end.

(** [{ ...content }] without ["wid"]. *)
Definition strip_wid (content : Action) : Action :=
  mkAction None (act_t content) (act_username content) (act_drawId content)
           (act_d content) (act_rest content).

(** [saveDrawingAction(wid, content)] *)
Definition saveDrawingAction (wid : option string) (content : Action) : M unit :=
  let* savedBoard := loadStoredData wid in
  let contentToSave := strip_wid content in
  let* savedBoard :=
    (if seq_str (act_t content) (Some "setTextboxText"%string)
     then lift (filter_board (keep_item content) savedBoard)
     else ret savedBoard) in
  let savedBoard := savedBoard ++ [contentToSave] in
  do modify (with_localCache <[to_key wid := savedBoard]>) then
  saveToDB wid.

(** [clearWhiteboard(wid)] *)
Definition clearWhiteboard (wid : option string) : M unit :=
  do modify (with_localCache (delete (to_key wid))) then
  let* ready := RedisAdapter.isReady in
  do (if ready then
        do RedisAdapter.delete (WHITEBOARD_PREFIX +:+ to_key wid) then
        do RedisAdapter.delete (UNDO_PREFIX +:+ to_key wid) then
        ret tt
      else ret tt) then
  publishEvent (mkEvent "clear" wid None None None None None).

(** [getUndoStack(wid)] *)
Definition getUndoStack (wid : option string) : M (list Action) :=
  let* ready := RedisAdapter.isReady in
  if ready then RedisAdapter.listGetAll (UNDO_PREFIX +:+ to_key wid)
  else ret [].

(** [saveUndoStack(wid, stack)] *)
Definition saveUndoStack (wid : option string) (stack : list Action) : M unit :=
  let* ready := RedisAdapter.isReady in
  if ready then
    do RedisAdapter.listReplace (UNDO_PREFIX +:+ to_key wid) stack then
    ret tt
  else ret tt.

(** The inner loop of [handleUndo] and of [handleRedo], which are the
    same loop with the two arrays exchanged:
    [for (let j = from.length - 1; j >= 0; j--)
       if (from[j]["drawId"] === drawId && from[j]["username"] === username)
         { to.push(from[j]); from.splice(j, 1); }].
    The first argument is [j + 1].  Reading a property of [from[j]] when
    [j] is out of range throws. *)
Fixpoint move_group (n : nat) (drawId username : option string)
    (from to : list Action) : completion (list Action * list Action) :=
  match n with
  | 0 => Normal (from, to)
  | S j =>
      match from !! j with
      | Some a =>
          if seq_str (act_drawId a) drawId && seq_str (act_username a) username
          then move_group j drawId username (delete j from) (to ++ [a])
          else move_group j drawId username from to
      | None => Throw
      end
  end.

(** The outer loop:
    [for (let i = from.length - 1; i >= 0; i--)
       if (from[i]["username"] === username) { ...inner loop...; break; }].
    The first argument is [i + 1]. *)
Fixpoint find_group (n : nat) (username : option string)
    (from to : list Action) : completion (list Action * list Action) :=
  match n with
  | 0 => Normal (from, to)
  | S i =>
      match from !! i with
      | Some a =>
          if seq_str (act_username a) username
          then move_group (length from) (act_drawId a) username from to
          else find_group i username from to
      | None => Throw
      end
  end.

(** [if (undoStack.length > 1000) undoStack.splice(0, undoStack.length - 1000)] *)
Definition limit_stack (undoStack : list Action) : list Action :=
  if bool_decide (1000 < length undoStack)
  then drop (length undoStack - 1000) undoStack
  else undoStack.

(** [handleUndo(wid, username)].  [savedBoard] is the very array held by
    the cache; the loop splices it in place, and nothing is awaited
    between the loop and the assignment that follows it. *)
Definition handleUndo (wid username : option string) : M unit :=
  let* savedBoard := loadStoredData wid in
  let* undoStack := getUndoStack wid in
  let* moved := lift (find_group (length savedBoard) username savedBoard undoStack) in
  let savedBoard := fst moved in
  let undoStack := limit_stack (snd moved) in
  do modify (with_localCache <[to_key wid := savedBoard]>) then
  do saveUndoStack wid undoStack then
  saveToDB wid.

(** [handleRedo(wid, username)] *)
Definition handleRedo (wid username : option string) : M unit :=
  let* savedBoard := loadStoredData wid in
  let* undoStack := getUndoStack wid in
  let* moved := lift (find_group (length undoStack) username undoStack savedBoard) in
  let undoStack := fst moved in
  let savedBoard := snd moved in
  do modify (with_localCache <[to_key wid := savedBoard]>) then
  do saveUndoStack wid undoStack then
  saveToDB wid.

(** [handleEventsAndData(content)] *)
Definition handleEventsAndData (content : Action) : M unit :=
  let tool := act_t content in
  let wid := act_wid content in
  let username := act_username content in
  do (if seq_str tool (Some "clear"%string) then clearWhiteboard wid
      else if seq_str tool (Some "undo"%string) then handleUndo wid username
      else if seq_str tool (Some "redo"%string) then handleRedo wid username
      else if isDrawingTool tool then saveDrawingAction wid content
      else ret tt) then
  let* data := cache_read wid in
  publishEvent (mkEvent "update" wid tool data (Some content) None None).


(* ===================================================================== *)
(** ** Vocabulary of the properties *)
(* ===================================================================== *)

(** An action belongs to the group [{drawId, username}]. *)
Definition in_group (drawId username : option string) (a : Action) : Prop :=
  act_drawId a = drawId ∧ act_username a = username.

#[global] Instance in_group_dec drawId username a :
  Decision (in_group drawId username a).
Proof. unfold in_group. apply _. Defined.

(** An action is owned by [username]. *)
Definition owned_by (username : option string) (a : Action) : Prop :=
  act_username a = username.

#[global] Instance owned_by_dec username a : Decision (owned_by username a).
Proof. unfold owned_by. apply _. Defined.

(** The actions of [l] inside and outside a group, in the order of [l]. *)
Definition group (drawId username : option string) (l : list Action) : list Action :=
  filter (in_group drawId username) l.

Definition others (drawId username : option string) (l : list Action) : list Action :=
  filter (λ a, ¬ in_group drawId username a) l.

(** The most recent action of [l] owned by [username]. *)
Definition most_recent (username : option string) (l : list Action) : option Action :=
  last (filter (owned_by username) l).

(** A stored action of the textbox-text tool whose leading payload entry
    is [id]. *)
Definition textbox_with (id : option jsval) (item : Action) : Prop :=
  act_t item = Some "setTextboxText"%string ∧ index0 (act_d item) = Normal id.

#[global] Instance completion_eq_dec {A} `{EqDecision A} : EqDecision (completion A).
Proof. solve_decision. Defined.

#[global] Instance textbox_with_dec id item : Decision (textbox_with id item).
Proof. unfold textbox_with. apply _. Defined.


(** The adapter says it is ready and the commands it sends succeed. *)
Definition online (w : World) : bool :=
  isConnected (redisAdapter w) && link_up (client (redisAdapter w)).

(** The list stored under [key] on the server, as [lRange] returns it to
    [listGetAll]; a key that is absent or holds a string gives [[]]. *)
Definition stored_list (key : string) (w : World) : list Action :=
  match db (client (redisAdapter w)) !! key with
  | Some (EList items) => items
  | _ => []
  end.

(** The effect of [listReplace] on the server's keys. *)
Definition replaced (key : string) (items : list Action)
    (m : gmap string entry) : gmap string entry :=
  if bool_decide (0 < length items)
  then <[key := EList items]> (delete key m)
  else delete key m.

(** The board that [loadStoredData] returns. *)
Definition board (wid : option string) (w : World) : list Action :=
  match localCache (service w) !! to_key wid with
  | Some b => b
  | None => if online w then stored_list (WHITEBOARD_PREFIX +:+ to_key wid) w else []
  end.

(** The undo stack that [getUndoStack] returns. *)
Definition undo_stack (wid : option string) (w : World) : list Action :=
  if online w then stored_list (UNDO_PREFIX +:+ to_key wid) w else [].

(** The event as [publishEvent] sends it. *)
Definition stamped (event : Event) (w : World) : Event :=
  mkEvent (ev_type event) (ev_wid event) (ev_tool event) (ev_data event)
          (ev_content event) (Some (nodeId (service w))) (Some (now w)).

(** What [handleUndo] and [handleRedo] leave behind: the board in the
    cache and, when the adapter is online, the stack and then the board
    written to the server. *)
Definition commit (wid : option string) (savedBoard undoStack : list Action)
    (w : World) : World :=
  with_db (λ m, if online w
                then replaced (WHITEBOARD_PREFIX +:+ to_key wid) savedBoard
                       (replaced (UNDO_PREFIX +:+ to_key wid) undoStack m)
                else m)
          (with_localCache <[to_key wid := savedBoard]> w).

(** The two arrays after the loops of [handleUndo] and [handleRedo]. *)
Definition moved (username : option string) (from to : list Action)
    : list Action * list Action :=
  match most_recent username from with
  | Some a => (others (act_drawId a) username from,
               to ++ reverse (group (act_drawId a) username from))
  | None => (from, to)
  end.

(** The board that [saveDrawingAction] appends to: the loaded board, or,
    for the textbox-text tool, what its filter leaves of it. *)
Definition kept (content : Action) (savedBoard : list Action)
    : completion (list Action) :=
  if seq_str (act_t content) (Some "setTextboxText"%string)
  then filter_board (keep_item content) savedBoard
  else Normal savedBoard.

(** The board [b] put in the cache and, when online, on the server. *)
Definition store_board (wid : option string) (b : list Action) (w : World) : World :=
  with_db (λ m, if online w
                then replaced (WHITEBOARD_PREFIX +:+ to_key wid) b m
                else m)
          (with_localCache <[to_key wid := b]> w).

(** The event that [clearWhiteboard] hands to [publishEvent]. *)
Definition clear_event (wid : option string) : Event :=
  mkEvent "clear" wid None None None None None.

(** The state after [clearWhiteboard]. *)
Definition cleared (wid : option string) (w : World) : World :=
  let w1 := with_localCache (delete (to_key wid)) w in
  if online w then
    with_published
      (λ l, l ++ [(CHANNEL_WHITEBOARD_EVENTS, stamped (clear_event wid) w)])
      (with_db (λ m, delete (UNDO_PREFIX +:+ to_key wid)
                       (delete (WHITEBOARD_PREFIX +:+ to_key wid) m)) w1)
  else w1.

(** The branch of [handleEventsAndData] that mutates the board. *)
Definition mutation (content : Action) : M unit :=
  let tool := act_t content in
  let wid := act_wid content in
  let username := act_username content in
  if seq_str tool (Some "clear"%string) then clearWhiteboard wid
  else if seq_str tool (Some "undo"%string) then handleUndo wid username
  else if seq_str tool (Some "redo"%string) then handleRedo wid username
  else if isDrawingTool tool then saveDrawingAction wid content
  else ret tt.

(** The update event that [handleEventsAndData] builds in state [w]. *)
Definition update_event (content : Action) (w : World) : Event :=
  mkEvent "update" (act_wid content) (act_t content)
          (localCache (service w) !! to_key (act_wid content))
          (Some content) None None.

(** The messages published so far. *)
Definition outbox (w : World) : list (string * Event) :=
  published (client (redisAdapter w)).

(** [n] calls of [handleUndo(wid, username)] in a row. *)
Definition undo_times (n : nat) (wid username : option string) (w : World) : World :=
  Nat.iter n (exec (handleUndo wid username)) w.

(* ===================================================================== *)
(** ** Sample states *)
(* ===================================================================== *)

Module Sample.

(** A node named ["node-1"] with one registered remote-event callback. *)
Definition node (connected up : bool) (cache : gmap string (list Action))
    (store : gmap string entry) : World :=
  mkWorld (mkAdapter (mkClient up store ∅ []) connected ∅)
          (mkService cache "node-1" [0])
          1700000000000%Z [].

(** A stored pen segment of stroke [drawId] by [user], ending at [x]. *)
Definition pen (user drawId : string) (x : Z) : Action :=
  mkAction None (Some "pen"%string) (Some user) (Some drawId)
           (Some [JNum 0; JNum 0; JNum x; JNum x]) [("th"%string, JNum 4)].

(** The same segment as a client sends it for board [wid]. *)
Definition draw (wid user drawId : string) (x : Z) : Action :=
  mkAction (Some wid) (Some "pen"%string) (Some user) (Some drawId)
           (Some [JNum 0; JNum 0; JNum x; JNum x]) [("th"%string, JNum 4)].

(** A textbox-text update for textbox [id] on board [wid]. *)
Definition text (wid user id txt : string) : Action :=
  mkAction (Some wid) (Some "setTextboxText"%string) (Some user) None
           (Some [JStr id; JStr txt]) [].

(** A command without payload: ["clear"], ["undo"] or ["redo"]. *)
Definition command (tool wid user : string) : Action :=
  mkAction (Some wid) (Some tool) (Some user) None None [].

Definition B : option string := Some "board"%string.
Definition U : option string := Some "ann"%string.


(** [n] strokes of one segment each, with drawIds ["0"], ["1"], ... *)
Definition strokes (n : nat) : list Action :=
  map (λ i, pen "ann" (NilEmpty.string_of_uint (Nat.to_uint i)) 1) (seq 0 n).

End Sample.

(* ===================================================================== *)
(** ** The remaining methods of RedisWhiteboardService.js *)
(* ===================================================================== *)

(** [initialize()].  [listener] stands for the arrow function that the
    method hands to [subscribe]; what [subscribe] returns is not looked
    at. *)
Definition initialize (listener : handler) : M bool :=
  let* ready := RedisAdapter.isReady in
  if negb ready then ret false
  else
    do RedisAdapter.subscribe CHANNEL_WHITEBOARD_EVENTS listener then
    ret true.

(** [copyStoredData(sourceWid, targetWid)]; [[...sourceData]] is a fresh
    array with the same elements. *)
Definition copyStoredData (sourceWid targetWid : option string) : M unit :=
  let* sourceData := loadStoredData sourceWid in
  let* targetData := loadStoredData targetWid in
  if bool_decide (length sourceData = 0) || bool_decide (0 < length targetData)
  then ret tt
  else
    do modify (with_localCache <[to_key targetWid := sourceData]>) then
    saveToDB targetWid.

(** [saveData(wid, data)].  [data] is a string or [undefined]; [!data]
    holds for [undefined] and for the empty string.  [JSON_parse] is
    [JSON.parse] on the strings that hold a board: it gives the array of
    actions, or throws. *)
Definition saveData (JSON_parse : string → completion (list Action))
    (wid : option string) (data : option string) : M unit :=
  let* existingData := loadStoredData wid in
  if bool_decide (0 < length existingData) || negb (truthy_str data)
  then ret tt
  else
    let* parsed := lift (JSON_parse (default EmptyString data)) in
    do modify (with_localCache <[to_key wid := parsed]>) then
    saveToDB wid.

(* ===================================================================== *)
(** ** MetricsService.js *)
(* ===================================================================== *)

Module MetricsService.

(** [this.metrics].  A counter is a JavaScript number that only ever
    holds an integer; [activeWhiteboards] is a [Set], kept here as the
    list of its elements in insertion order. *)
Record Metrics := mkMetrics {
  activeConnections : Z;
  totalConnections : Z;
  totalDisconnections : Z;
  activeWhiteboards : list string;
  totalDrawEvents : Z;
  totalUndoEvents : Z;
  totalRedoEvents : Z;
  totalClearEvents : Z;
  requestCount : Z;
  errorCount : Z;
  redisConnected : bool;
  redisPublishCount : Z;
  redisSubscribeCount : Z;
  startTime : Z;
  lastActivityTime : Z
}.

(** [Set.prototype.add] *)
Definition set_add (x : string) (s : list string) : list string :=
  if bool_decide (x ∈ s) then s else s ++ [x].

(** [constructor()]; [Date.now()] is read twice, giving [now] and then
    [later]. *)
Definition constructor (now later : Z) : Metrics :=
  mkMetrics 0 0 0 [] 0 0 0 0 0 0 false 0 0 now later.

(** What the rest of the server asks of the service: one constructor per
    method that changes [this.metrics]. *)
Inductive call :=
  | connectionOpened
  | connectionClosed
  | whiteboardJoined (wid : string)
  | whiteboardLeft (wid : string)
  | drawEvent
  | undoEvent
  | redoEvent
  | clearEvent
  | requestReceived
  | errorOccurred
  | setRedisConnected (connected : bool)
  | redisPublish
  | redisSubscribe.

(** The body of each method, run when [Date.now()] is [now]. *)
Definition step (now : Z) (c : call) (m : Metrics) : Metrics :=
  match c with
  | connectionOpened =>
      mkMetrics (activeConnections m + 1) (totalConnections m + 1)
        (totalDisconnections m) (activeWhiteboards m) (totalDrawEvents m)
        (totalUndoEvents m) (totalRedoEvents m) (totalClearEvents m)
        (requestCount m) (errorCount m) (redisConnected m)
        (redisPublishCount m) (redisSubscribeCount m) (startTime m) now
  | connectionClosed =>
      mkMetrics (Z.max 0 (activeConnections m - 1)) (totalConnections m)
        (totalDisconnections m + 1) (activeWhiteboards m) (totalDrawEvents m)
        (totalUndoEvents m) (totalRedoEvents m) (totalClearEvents m)
        (requestCount m) (errorCount m) (redisConnected m)
        (redisPublishCount m) (redisSubscribeCount m) (startTime m)
        (lastActivityTime m)
  | whiteboardJoined wid =>
      mkMetrics (activeConnections m) (totalConnections m)
        (totalDisconnections m) (set_add wid (activeWhiteboards m))
        (totalDrawEvents m) (totalUndoEvents m) (totalRedoEvents m)
        (totalClearEvents m) (requestCount m) (errorCount m) (redisConnected m)
        (redisPublishCount m) (redisSubscribeCount m) (startTime m) now
  | whiteboardLeft _ => m
  | drawEvent =>
      mkMetrics (activeConnections m) (totalConnections m)
        (totalDisconnections m) (activeWhiteboards m) (totalDrawEvents m + 1)
        (totalUndoEvents m) (totalRedoEvents m) (totalClearEvents m)
        (requestCount m) (errorCount m) (redisConnected m)
        (redisPublishCount m) (redisSubscribeCount m) (startTime m) now
  | undoEvent =>
      mkMetrics (activeConnections m) (totalConnections m)
        (totalDisconnections m) (activeWhiteboards m) (totalDrawEvents m)
        (totalUndoEvents m + 1) (totalRedoEvents m) (totalClearEvents m)
        (requestCount m) (errorCount m) (redisConnected m)
        (redisPublishCount m) (redisSubscribeCount m) (startTime m)
        (lastActivityTime m)
  | redoEvent =>
      mkMetrics (activeConnections m) (totalConnections m)
        (totalDisconnections m) (activeWhiteboards m) (totalDrawEvents m)
        (totalUndoEvents m) (totalRedoEvents m + 1) (totalClearEvents m)
        (requestCount m) (errorCount m) (redisConnected m)
        (redisPublishCount m) (redisSubscribeCount m) (startTime m)
        (lastActivityTime m)
  | clearEvent =>
      mkMetrics (activeConnections m) (totalConnections m)
        (totalDisconnections m) (activeWhiteboards m) (totalDrawEvents m)
        (totalUndoEvents m) (totalRedoEvents m) (totalClearEvents m + 1)
        (requestCount m) (errorCount m) (redisConnected m)
        (redisPublishCount m) (redisSubscribeCount m) (startTime m)
        (lastActivityTime m)
  | requestReceived =>
      mkMetrics (activeConnections m) (totalConnections m)
        (totalDisconnections m) (activeWhiteboards m) (totalDrawEvents m)
        (totalUndoEvents m) (totalRedoEvents m) (totalClearEvents m)
        (requestCount m + 1) (errorCount m) (redisConnected m)
        (redisPublishCount m) (redisSubscribeCount m) (startTime m)
        (lastActivityTime m)
  | errorOccurred =>
      mkMetrics (activeConnections m) (totalConnections m)
        (totalDisconnections m) (activeWhiteboards m) (totalDrawEvents m)
        (totalUndoEvents m) (totalRedoEvents m) (totalClearEvents m)
        (requestCount m) (errorCount m + 1) (redisConnected m)
        (redisPublishCount m) (redisSubscribeCount m) (startTime m)
        (lastActivityTime m)
  | setRedisConnected connected =>
      mkMetrics (activeConnections m) (totalConnections m)
        (totalDisconnections m) (activeWhiteboards m) (totalDrawEvents m)
        (totalUndoEvents m) (totalRedoEvents m) (totalClearEvents m)
        (requestCount m) (errorCount m) connected
        (redisPublishCount m) (redisSubscribeCount m) (startTime m)
        (lastActivityTime m)
  | redisPublish =>
      mkMetrics (activeConnections m) (totalConnections m)
        (totalDisconnections m) (activeWhiteboards m) (totalDrawEvents m)
        (totalUndoEvents m) (totalRedoEvents m) (totalClearEvents m)
        (requestCount m) (errorCount m) (redisConnected m)
        (redisPublishCount m + 1) (redisSubscribeCount m) (startTime m)
        (lastActivityTime m)
  | redisSubscribe =>
      mkMetrics (activeConnections m) (totalConnections m)
        (totalDisconnections m) (activeWhiteboards m) (totalDrawEvents m)
        (totalUndoEvents m) (totalRedoEvents m) (totalClearEvents m)
        (requestCount m) (errorCount m) (redisConnected m)
        (redisPublishCount m) (redisSubscribeCount m + 1) (startTime m)
        (lastActivityTime m)
  end.

(** A history of the service: the calls made on it, each with the time
    at which it ran, the first call first. *)
Fixpoint run (history : list (Z * call)) (m : Metrics) : Metrics :=
  match history with
  | [] => m
  | (now, c) :: rest => run rest (step now c m)
  end.

(** [getUptime()]: [Math.floor] of the quotient. *)
Definition getUptime (now : Z) (m : Metrics) : Z :=
  ((now - startTime m) / 1000)%Z.

(** The object returned by [getJsonMetrics(nodeId)], its nested objects
    flattened.  [lastActivity] is kept as the time that
    [toISOString()] prints. *)
Record JsonMetrics := mkJsonMetrics {
  json_nodeId : string;
  json_uptime : Z;
  json_connections_active : Z;
  json_connections_total : Z;
  json_connections_disconnections : Z;
  json_whiteboards_active : nat;
  json_whiteboards_list : list string;
  json_events_draw : Z;
  json_events_undo : Z;
  json_events_redo : Z;
  json_events_clear : Z;
  json_redis_connected : bool;
  json_redis_publishCount : Z;
  json_redis_subscribeCount : Z;
  json_requests : Z;
  json_errors : Z;
  json_lastActivity : Z
}.

(** [getJsonMetrics(nodeId = 'unknown')] *)
Definition getJsonMetrics (now : Z) (nodeId : option string) (m : Metrics)
    : JsonMetrics :=
  mkJsonMetrics
    (default "unknown"%string nodeId)
    (getUptime now m)
    (activeConnections m) (totalConnections m) (totalDisconnections m)
    (length (activeWhiteboards m))
    (take 10 (activeWhiteboards m))
    (totalDrawEvents m) (totalUndoEvents m) (totalRedoEvents m)
    (totalClearEvents m)
    (redisConnected m) (redisPublishCount m) (redisSubscribeCount m)
    (requestCount m) (errorCount m)
    (lastActivityTime m).

(** The connection counters fit together. *)
Definition connections_consistent (m : Metrics) : Prop :=
  (0 ≤ activeConnections m)%Z
  ∧ (activeConnections m ≤ totalConnections m)%Z
  ∧ (totalConnections m ≤ activeConnections m + totalDisconnections m)%Z.

(** The counters of [m] are below those of [m']. *)
Definition counters_le (m m' : Metrics) : Prop :=
  (totalConnections m ≤ totalConnections m')%Z
  ∧ (totalDisconnections m ≤ totalDisconnections m')%Z
  ∧ (totalDrawEvents m ≤ totalDrawEvents m')%Z
  ∧ (totalUndoEvents m ≤ totalUndoEvents m')%Z
  ∧ (totalRedoEvents m ≤ totalRedoEvents m')%Z
  ∧ (totalClearEvents m ≤ totalClearEvents m')%Z
  ∧ (requestCount m ≤ requestCount m')%Z
  ∧ (errorCount m ≤ errorCount m')%Z
  ∧ (redisPublishCount m ≤ redisPublishCount m')%Z
  ∧ (redisSubscribeCount m ≤ redisSubscribeCount m')%Z
  ∧ startTime m = startTime m'.

End MetricsService.

(* ===================================================================== *)
(** ** Vocabulary of the further properties *)
(* ===================================================================== *)

(** The adapter's flag and the link set by hand, as when the connection
    comes up or goes down between two calls. *)
Definition with_connection (connected up : bool) (w : World) : World :=
  let a := redisAdapter w in
  let c := client a in
  mkWorld (mkAdapter (mkClient up (db c) (listeners c) (published c))
                     connected (handlers a))
          (service w) (now w) (calls w).


(** The messages handed to [handleRemoteEvent] one after the other. *)
Fixpoint receive_all (messages : list Event) (w : World) : World :=
  match messages with
  | [] => w
  | message :: rest => receive_all rest (exec (handleRemoteEvent message) w)
  end.

(** The messages that [w'] has published beyond those of [w]. *)
Definition published_since (w w' : World) : list Event :=
  snd <$> drop (length (outbox w)) (outbox w').

(** What [handleRemoteEvent] does to the cache for a message of another
    node. *)
Definition remote_effect (message : Event)
    (cache : gmap string (list Action)) : gmap string (list Action) :=
  if String.eqb (ev_type message) "update" && truthy_str (ev_wid message)
  then cache_assign (to_key (ev_wid message)) (ev_data message) cache
  else if String.eqb (ev_type message) "clear" && truthy_str (ev_wid message)
  then delete (to_key (ev_wid message)) cache
  else cache.

(** The tool is one of those that [handleEventsAndData] acts on. *)
Definition known_tool (tool : option string) : bool :=
  seq_str tool (Some "clear"%string) || seq_str tool (Some "undo"%string)
  || seq_str tool (Some "redo"%string) || isDrawingTool tool.

(** No stored action carries a board id. *)
Definition no_board_id (l : list Action) : Prop :=
  ∀ a, a ∈ l → act_wid a = None.

(* ===================================================================== *)
(** ** The two loops of undo and redo *)
(* ===================================================================== *)

Section Loops.
Variables drawId username : option string.

Lemma group_test a :
  seq_str (act_drawId a) drawId && seq_str (act_username a) username
  = bool_decide (in_group drawId username a).
Proof.
  unfold seq_str, in_group.
  repeat case_bool_decide; simpl; try reflexivity; tauto.
Qed.

(** The inner loop run from index [n - 1] down: the part of [from]
    below [n] is split, the part from [n] on is kept, and the group is
    pushed onto [to] from the end to the start. *)
Lemma move_group_take n (from to : list Action) :
  n ≤ length from →
  move_group n drawId username from to
  = Normal (others drawId username (take n from) ++ drop n from,
            to ++ reverse (group drawId username (take n from))).
Proof.
  revert from to. induction n as [|j IH]; intros from to Hn.
  - simpl. unfold group. rewrite take_0, drop_0, filter_nil.
    by rewrite app_nil_r.
  - destruct (lookup_lt_is_Some_2 from j ltac:(lia)) as [a Ha].
    simpl. rewrite Ha, group_test.
    rewrite (take_S_r _ _ _ Ha). unfold others, group.
    rewrite !filter_app.
    case_bool_decide as Hg.
    + rewrite IH by (rewrite length_delete by eauto; lia).
      rewrite delete_take_drop.
      rewrite take_app_le, drop_app_le by (rewrite length_take; lia).
      rewrite take_take, Nat.min_id.
      rewrite drop_ge, app_nil_l by (rewrite length_take; lia).
      rewrite (filter_cons_True _ _ _ Hg), filter_nil.
      rewrite (filter_cons_False _ a []), filter_nil by tauto.
      rewrite reverse_app, reverse_singleton. unfold others, group.
      by rewrite app_nil_r, <- app_assoc.
    + rewrite IH by lia. unfold others, group.
      rewrite (filter_cons_False _ _ _ Hg), filter_nil.
      rewrite (filter_cons_True _ a []), filter_nil by tauto.
      rewrite app_nil_r, <- app_assoc. simpl.
      by rewrite (drop_S _ _ _ Ha).
Qed.

(** The inner loop run over the whole array. *)
Lemma move_group_all (from to : list Action) :
  move_group (length from) drawId username from to
  = Normal (others drawId username from,
            to ++ reverse (group drawId username from)).
Proof.
  rewrite move_group_take by lia.
  by rewrite firstn_all, drop_all, app_nil_r.
Qed.
End Loops.

(** The outer loop run from index [n - 1] down: it looks for the most
    recent action owned by [username] below [n] and, when there is one,
    moves its whole group. *)
Lemma find_group_take n username (from to : list Action) :
  n ≤ length from →
  find_group n username from to
  = Normal (match most_recent username (take n from) with
            | Some a => (others (act_drawId a) username from,
                         to ++ reverse (group (act_drawId a) username from))
            | None => (from, to)
            end).
Proof.
  induction n as [|i IH]; intros Hn.
  - by rewrite take_0.
  - destruct (lookup_lt_is_Some_2 from i ltac:(lia)) as [a Ha].
    simpl. rewrite Ha. unfold most_recent.
    rewrite (take_S_r _ _ _ Ha), filter_app.
    unfold seq_str. case_bool_decide as Ho.
    + rewrite (filter_cons_True (owned_by username) a []), filter_nil by done.
      rewrite last_snoc. apply move_group_all.
    + rewrite (filter_cons_False (owned_by username) a []), filter_nil by done.
      rewrite app_nil_r. apply IH. lia.
Qed.

(** The two loops of [handleUndo] and [handleRedo] never throw. *)
Lemma find_group_all username (from to : list Action) :
  find_group (length from) username from to
  = Normal (match most_recent username from with
            | Some a => (others (act_drawId a) username from,
                         to ++ reverse (group (act_drawId a) username from))
            | None => (from, to)
            end).
Proof. rewrite find_group_take by lia. by rewrite firstn_all. Qed.


(* ===================================================================== *)
(** ** What each method does to the state *)
(* ===================================================================== *)

Lemma bind_run {A B} (m : M A) (k : A → M B) w a w' :
  m w = (Normal a, w') → bind m k w = k a w'.
Proof. unfold bind. by intros ->. Qed.

Lemma bind_throw {A B} (m : M A) (k : A → M B) w w' :
  m w = (Throw, w') → bind m k w = (Throw, w').
Proof. unfold bind. by intros ->. Qed.

Ltac world w :=
  destruct w as [[[up store subs log] conn table] [cache self hs] time trace].

Ltac run :=
  unfold online, stored_list, RedisAdapter.isReady, Client.command, Client.lookup,
    try_catch, bind, gets, modify, ret, throw, lift, exec, result,
    with_localCache, with_db, with_published, with_listeners, with_handlers,
    with_calls, with_eventHandlers, with_client in *;
  cbn [redisAdapter service now calls client isConnected handlers link_up db
       listeners published localCache nodeId eventHandlers fst snd negb andb] in *.

Lemma adapter_listGetAll_run key w :
  RedisAdapter.listGetAll key w
  = (Normal (if online w then stored_list key w else []), w).
Proof.
  world w. unfold RedisAdapter.listGetAll, Client.lRange. run.
  destruct conn, up; cbn; try reflexivity.
  destruct (store !! key) as [[]|]; reflexivity.
Qed.

Lemma adapter_listReplace_run key items w :
  RedisAdapter.listReplace key items w
  = if online w then (Normal true, with_db (replaced key items) w)
    else (Normal false, w).
Proof.
  world w. unfold RedisAdapter.listReplace, Client.del, Client.rPush, replaced. run.
  destruct conn, up; cbn; try reflexivity.
  case_bool_decide; cbn; [|reflexivity].
  by rewrite lookup_delete_eq.
Qed.

Lemma adapter_delete_run key w :
  RedisAdapter.delete key w
  = if online w then (Normal true, with_db (base.delete key) w)
    else (Normal false, w).
Proof.
  world w. unfold RedisAdapter.delete, Client.del. run.
  destruct conn, up; reflexivity.
Qed.

Lemma adapter_publish_run channel message w :
  RedisAdapter.publish channel message w
  = if online w
    then (Normal true, with_published (λ l, l ++ [(channel, message)]) w)
    else (Normal false, w).
Proof.
  world w. unfold RedisAdapter.publish, Client.publish. run.
  destruct conn, up; reflexivity.
Qed.


Arguments RedisAdapter.listGetAll : simpl never.
Arguments RedisAdapter.listReplace : simpl never.
Arguments RedisAdapter.delete : simpl never.
Arguments RedisAdapter.publish : simpl never.

Lemma loadStoredData_run wid w :
  loadStoredData wid w
  = (Normal (board wid w), with_localCache <[to_key wid := board wid w]> w).
Proof.
  unfold loadStoredData, cache_read, board.
  world w. run.
  destruct (cache !! to_key wid) as [b|] eqn:Hc.
  - by rewrite insert_id.
  - destruct conn; cbn; [|reflexivity].
    rewrite adapter_listGetAll_run. run.
    destruct up; cbn; [|reflexivity].
    case_bool_decide as Hlen; cbn; [reflexivity|].
    destruct (store !! _) as [[]|]; try reflexivity.
    destruct items; [reflexivity|simpl in Hlen; lia].
Qed.

Lemma getUndoStack_run wid w :
  getUndoStack wid w = (Normal (undo_stack wid w), w).
Proof.
  unfold getUndoStack, undo_stack. world w. run.
  destruct conn; cbn; [|reflexivity].
  rewrite adapter_listGetAll_run. run. reflexivity.
Qed.

Lemma saveUndoStack_run wid stack w :
  saveUndoStack wid stack w
  = (Normal tt,
     if online w then with_db (replaced (UNDO_PREFIX +:+ to_key wid) stack) w
     else w).
Proof.
  unfold saveUndoStack. world w. run.
  destruct conn; cbn; [|reflexivity].
  rewrite adapter_listReplace_run. run.
  destruct up; reflexivity.
Qed.

Lemma saveToDB_run wid w :
  saveToDB wid w
  = (Normal tt,
     if online w then
       match localCache (service w) !! to_key wid with
       | Some data => with_db (replaced (WHITEBOARD_PREFIX +:+ to_key wid) data) w
       | None => w
       end
     else w).
Proof.
  unfold saveToDB, cache_read. world w. run.
  destruct conn; cbn; [|reflexivity].
  destruct (cache !! to_key wid) as [data|]; cbn.
  - rewrite adapter_listReplace_run. run. destruct up; reflexivity.
  - destruct up; reflexivity.
Qed.

Lemma publishEvent_run event w :
  publishEvent event w
  = (Normal tt,
     if online w
     then with_published
            (λ l, l ++ [(CHANNEL_WHITEBOARD_EVENTS, stamped event w)]) w
     else w).
Proof.
  unfold publishEvent, stamped. world w. run.
  destruct conn; cbn; [|reflexivity].
  rewrite adapter_publish_run. run.
  destruct up; reflexivity.
Qed.


Arguments loadStoredData : simpl never.
Arguments getUndoStack : simpl never.
Arguments saveUndoStack : simpl never.
Arguments saveToDB : simpl never.
Arguments publishEvent : simpl never.

(** The two keys of a board on the server differ. *)
Lemma data_key_ne_undo_key a b : WHITEBOARD_PREFIX +:+ a ≠ UNDO_PREFIX +:+ b.
Proof.
  intros H. apply (f_equal (String.get 11)) in H.
  vm_compute in H. discriminate H.
Qed.

Lemma undo_stack_cache f wid w :
  undo_stack wid (with_localCache f w) = undo_stack wid w.
Proof. by world w. Qed.

Lemma online_cache f w : online (with_localCache f w) = online w.
Proof. by world w. Qed.

Lemma handleUndo_run wid username w :
  handleUndo wid username w
  = (Normal tt,
     let arrays := moved username (board wid w) (undo_stack wid w) in
     commit wid (fst arrays) (limit_stack (snd arrays)) w).
Proof.
  unfold handleUndo.
  rewrite (bind_run _ _ _ _ _ (loadStoredData_run wid w)).
  rewrite (bind_run _ _ _ _ _ (getUndoStack_run wid _)).
  rewrite find_group_all, undo_stack_cache.
  change (match most_recent username (board wid w) with
          | Some a => _ | None => _ end)
    with (moved username (board wid w) (undo_stack wid w)).
  cbv zeta. destruct (moved _ _ _) as [b s].
  unfold bind at 1. unfold lift. cbn [fst snd].
  unfold bind at 1. unfold modify at 1.
  rewrite (bind_run _ _ _ _ _ (saveUndoStack_run wid _ _)).
  rewrite saveToDB_run. f_equal.
  unfold commit. world w. run.
  destruct conn, up; cbn; rewrite ?insert_insert_eq, ?lookup_insert_eq; reflexivity.
Qed.

Lemma handleRedo_run wid username w :
  handleRedo wid username w
  = (Normal tt,
     let arrays := moved username (undo_stack wid w) (board wid w) in
     commit wid (snd arrays) (fst arrays) w).
Proof.
  unfold handleRedo.
  rewrite (bind_run _ _ _ _ _ (loadStoredData_run wid w)).
  rewrite (bind_run _ _ _ _ _ (getUndoStack_run wid _)).
  rewrite find_group_all, undo_stack_cache.
  change (match most_recent username (undo_stack wid w) with
          | Some a => _ | None => _ end)
    with (moved username (undo_stack wid w) (board wid w)).
  cbv zeta. destruct (moved _ _ _) as [s b].
  unfold bind at 1. unfold lift. cbn [fst snd].
  unfold bind at 1. unfold modify at 1.
  rewrite (bind_run _ _ _ _ _ (saveUndoStack_run wid _ _)).
  rewrite saveToDB_run. f_equal.
  unfold commit. world w. run.
  destruct conn, up; cbn; rewrite ?insert_insert_eq, ?lookup_insert_eq; reflexivity.
Qed.

Arguments handleUndo : simpl never.
Arguments handleRedo : simpl never.

(** *** Reading back what [commit] wrote *)

Lemma replaced_lookup key items (m : gmap string entry) :
  match replaced key items m !! key with
  | Some (EList l) => l
  | _ => []
  end = items.
Proof.
  unfold replaced. case_bool_decide as Hlen.
  - by rewrite lookup_insert_eq.
  - rewrite lookup_delete_eq. destruct items; [done | simpl in Hlen; lia].
Qed.

Lemma replaced_lookup_ne key key' items (m : gmap string entry) :
  key ≠ key' → replaced key items m !! key' = m !! key'.
Proof.
  intros Hne. unfold replaced. case_bool_decide.
  - by rewrite lookup_insert_ne, lookup_delete_ne.
  - by rewrite lookup_delete_ne.
Qed.

Lemma online_commit wid b s w : online (commit wid b s w) = online w.
Proof. by world w. Qed.

Lemma cache_commit wid b s w :
  localCache (service (commit wid b s w))
  = <[to_key wid := b]> (localCache (service w)).
Proof. by world w. Qed.

Lemma board_commit wid b s w : board wid (commit wid b s w) = b.
Proof. unfold board. by rewrite cache_commit, lookup_insert_eq. Qed.

Lemma undo_stack_commit wid b s w :
  undo_stack wid (commit wid b s w) = if online w then s else [].
Proof.
  unfold undo_stack. rewrite online_commit.
  destruct (online w) eqn:Hon; [|done].
  unfold stored_list, commit. world w. run. rewrite Hon.
  rewrite replaced_lookup_ne by apply data_key_ne_undo_key.
  apply replaced_lookup.
Qed.

Lemma commit_offline wid b s w :
  online w = false →
  commit wid b s w = with_localCache <[to_key wid := b]> w.
Proof. unfold commit. world w. run. by intros ->. Qed.

(** *** Drawing, clearing and the entry point *)

Lemma saveDrawingAction_run wid content w :
  saveDrawingAction wid content w
  = match kept content (board wid w) with
    | Normal b => (Normal tt, store_board wid (b ++ [strip_wid content]) w)
    | Throw => (Throw, with_localCache <[to_key wid := board wid w]> w)
    end.
Proof.
  unfold saveDrawingAction, kept.
  rewrite (bind_run _ _ _ _ _ (loadStoredData_run wid w)).
  cbv zeta.
  destruct (seq_str (act_t content) _).
  - unfold bind at 1, lift.
    destruct (filter_board _ _) as [b|]; [|reflexivity].
    unfold bind at 1. unfold modify at 1.
    rewrite saveToDB_run. f_equal.
    unfold store_board. world w. run.
    destruct conn, up; cbn; rewrite ?insert_insert_eq, ?lookup_insert_eq; reflexivity.
  - unfold bind at 1, ret at 1.
    unfold bind at 1. unfold modify at 1.
    rewrite saveToDB_run. f_equal.
    unfold store_board. world w. run.
    destruct conn, up; cbn; rewrite ?insert_insert_eq, ?lookup_insert_eq; reflexivity.
Qed.

Lemma clearWhiteboard_run wid w :
  clearWhiteboard wid w = (Normal tt, cleared wid w).
Proof.
  unfold clearWhiteboard, cleared. world w. run.
  destruct conn; run.
  - rewrite adapter_delete_run. run.
    destruct up; run.
    + rewrite adapter_delete_run. run.
      rewrite publishEvent_run. run. reflexivity.
    + rewrite adapter_delete_run. run.
      rewrite publishEvent_run. run. reflexivity.
  - rewrite publishEvent_run. run. reflexivity.
Qed.

Arguments saveDrawingAction : simpl never.
Arguments clearWhiteboard : simpl never.

Lemma handleEventsAndData_run content w w' :
  mutation content w = (Normal tt, w') →
  handleEventsAndData content w
  = (Normal tt,
     if online w'
     then with_published
            (λ l, l ++ [(CHANNEL_WHITEBOARD_EVENTS,
                         stamped (update_event content w') w')]) w'
     else w').
Proof.
  intros Hm. unfold handleEventsAndData. cbv zeta.
  fold (mutation content).
  rewrite (bind_run _ _ _ _ _ Hm).
  unfold bind at 1, cache_read, gets at 1.
  by rewrite publishEvent_run.
Qed.

Lemma handleEventsAndData_throw content w w' :
  mutation content w = (Throw, w') →
  handleEventsAndData content w = (Throw, w').
Proof.
  intros Hm. unfold handleEventsAndData. cbv zeta.
  fold (mutation content).
  by rewrite (bind_throw _ _ _ _ Hm).
Qed.

(** *** Results of the readers *)

Lemma loadStoredData_result wid w :
  result (loadStoredData wid) w = Normal (board wid w).
Proof. unfold result. by rewrite loadStoredData_run. Qed.

Lemma getUndoStack_result wid w :
  result (getUndoStack wid) w = Normal (undo_stack wid w).
Proof. unfold result. by rewrite getUndoStack_run. Qed.

Lemma online_false_of_not_ready w :
  isConnected (redisAdapter w) = false → online w = false.
Proof. unfold online. by intros ->. Qed.

(** *** Groups *)

Lemma most_recent_owned username (l : list Action) a :
  most_recent username l = Some a → a ∈ l ∧ act_username a = username.
Proof.
  unfold most_recent. intros Hlast.
  apply last_Some_elem_of in Hlast.
  apply list_elem_of_filter in Hlast as [Ho Hin]. done.
Qed.

Lemma most_recent_exists username (l : list Action) x :
  x ∈ l → act_username x = username →
  ∃ a, most_recent username l = Some a.
Proof.
  intros Hin Ho. unfold most_recent.
  destruct (last (filter (owned_by username) l)) as [a|] eqn:Hlast; [eauto|].
  apply last_None in Hlast.
  assert (x ∈ filter (owned_by username) l) as Hx
    by (apply list_elem_of_filter; done).
  rewrite Hlast in Hx. by apply not_elem_of_nil in Hx.
Qed.

Lemma most_recent_in_group username (l : list Action) a :
  most_recent username l = Some a → a ∈ group (act_drawId a) username l.
Proof.
  intros Hm. apply most_recent_owned in Hm as [Hin Ho].
  apply list_elem_of_filter. done.
Qed.

Lemma limit_stack_length (s : list Action) : length (limit_stack s) ≤ 1000.
Proof.
  unfold limit_stack. case_bool_decide; [|lia].
  rewrite length_drop. lia.
Qed.

Lemma limit_stack_small (s : list Action) : length s ≤ 1000 → limit_stack s = s.
Proof. unfold limit_stack. intros. case_bool_decide; [lia|done]. Qed.


(** *** One undo, one redo *)

Lemma handleUndo_exec wid username w :
  exec (handleUndo wid username) w
  = commit wid (fst (moved username (board wid w) (undo_stack wid w)))
           (limit_stack (snd (moved username (board wid w) (undo_stack wid w)))) w.
Proof. unfold exec. by rewrite handleUndo_run. Qed.

Lemma handleRedo_exec wid username w :
  exec (handleRedo wid username) w
  = commit wid (snd (moved username (undo_stack wid w) (board wid w)))
           (fst (moved username (undo_stack wid w) (board wid w))) w.
Proof. unfold exec. by rewrite handleRedo_run. Qed.

Lemma handleUndo_board wid username w :
  board wid (exec (handleUndo wid username) w)
  = fst (moved username (board wid w) (undo_stack wid w)).
Proof. by rewrite handleUndo_exec, board_commit. Qed.

Lemma handleUndo_stack wid username w :
  online w = true →
  undo_stack wid (exec (handleUndo wid username) w)
  = limit_stack (snd (moved username (board wid w) (undo_stack wid w))).
Proof. intros Hon. by rewrite handleUndo_exec, undo_stack_commit, Hon. Qed.

Lemma handleUndo_online wid username w :
  online (exec (handleUndo wid username) w) = online w.
Proof. by rewrite handleUndo_exec, online_commit. Qed.

Lemma handleRedo_board wid username w :
  board wid (exec (handleRedo wid username) w)
  = snd (moved username (undo_stack wid w) (board wid w)).
Proof. by rewrite handleRedo_exec, board_commit. Qed.

Lemma handleRedo_stack wid username w :
  online w = true →
  undo_stack wid (exec (handleRedo wid username) w)
  = fst (moved username (undo_stack wid w) (board wid w)).
Proof. intros Hon. by rewrite handleRedo_exec, undo_stack_commit, Hon. Qed.


(** *** Strokes of one action each *)

Lemma filter_none {A} (P : A → Prop) `{!∀ y, Decision (P y)} (l : list A) :
  (∀ y, y ∈ l → ¬ P y) → filter P l = [].
Proof.
  induction l as [|y l IH]; intros HP; [done|].
  rewrite filter_cons_False by (apply HP; left).
  apply IH. intros z Hz. apply HP. by right.
Qed.

Lemma filter_all {A} (P : A → Prop) `{!∀ y, Decision (P y)} (l : list A) :
  (∀ y, y ∈ l → P y) → filter P l = l.
Proof.
  induction l as [|y l IH]; intros HP; [done|].
  rewrite filter_cons_True by (apply HP; left).
  f_equal. apply IH. intros z Hz. apply HP. by right.
Qed.

(** When the actions of a board all belong to [username] and carry
    pairwise distinct drawIds, the group of the last one is that action
    alone. *)
Lemma single_action_group username (l : list Action) a :
  (∀ y, y ∈ l ++ [a] → act_username y = username) →
  NoDup (act_drawId <$> (l ++ [a])) →
  moved username (l ++ [a]) = λ to, (l, to ++ [a]).
Proof.
  intros Ho Hnd.
  assert (act_username a = username) as Ha by (apply Ho; set_solver).
  rewrite fmap_app in Hnd. apply NoDup_app in Hnd as (_ & Hdisj & _).
  assert (∀ y, y ∈ l → ¬ in_group (act_drawId a) username y) as Hout.
  { intros y Hy [Hd _]. apply (Hdisj (act_drawId y)).
    - by apply list_elem_of_fmap_2.
    - rewrite Hd. set_solver. }
  unfold moved, most_recent.
  rewrite filter_app, (filter_cons_True (owned_by username) a []) by done.
  rewrite filter_nil, last_snoc. unfold others, group.
  rewrite !filter_app.
  rewrite (filter_cons_True (in_group _ _) a []), filter_nil by done.
  rewrite (filter_cons_False (λ y, ¬ in_group _ _ y) a []), filter_nil
    by (intros Hn; by apply Hn).
  rewrite (filter_none (in_group _ _) l) by done.
  rewrite (filter_all (λ y, ¬ in_group _ _ y) l) by done.
  by rewrite app_nil_r.
Qed.

(** [n] undos on such a board, while the stack stays within its bound:
    the last [n] actions are on the stack, the most recent at the
    bottom. *)
Lemma undo_times_within_bound n wid username (acts s : list Action) w :
  online w = true →
  board wid w = acts → undo_stack wid w = s →
  (∀ y, y ∈ acts → act_username y = username) →
  NoDup (act_drawId <$> acts) →
  n ≤ length acts → length s + n ≤ 1000 →
  let w' := undo_times n wid username w in
  online w' = true
  ∧ board wid w' = take (length acts - n) acts
  ∧ undo_stack wid w' = s ++ reverse (drop (length acts - n) acts).
Proof.
  intros Hon Hb Hs Ho Hnd. induction n as [|n IH]; intros Hn Hlen.
  - cbn. rewrite Nat.sub_0_r, firstn_all, drop_all, app_nil_r. done.
  - destruct IH as (Hon' & Hb' & Hs'); [lia..|].
    unfold undo_times in *. rewrite Nat.iter_succ. cbv zeta in *.
    set (wn := Nat.iter n _ w) in *.
    set (m := length acts - S n).
    assert (length acts - n = S m) as Hm by lia. rewrite Hm in *.
    destruct (lookup_lt_is_Some_2 acts m ltac:(lia)) as [a Ha].
    rewrite (take_S_r _ _ _ Ha) in Hb'.
    assert (moved username (board wid wn) = λ to, (take m acts, to ++ [a])) as Hmv.
    { rewrite Hb'. apply single_action_group.
      - intros y Hy. apply Ho. rewrite <- (take_S_r _ _ _ Ha) in Hy.
        by apply (subseteq_take (S m)).
      - rewrite <- (take_S_r _ _ _ Ha), fmap_take.
        eapply sublist_NoDup; eauto using sublist_take. }
    rewrite handleUndo_online, handleUndo_board, handleUndo_stack, Hmv by done.
    cbn [fst snd]. rewrite Hs'.
    rewrite limit_stack_small
      by (rewrite !length_app, length_reverse, length_drop; simpl; lia).
    rewrite (drop_S _ _ _ Ha), reverse_cons, app_assoc. done.
Qed.

(** The stack bound, with the bound named. *)
Lemma limit_stack_over (N : nat) (s : list Action) :
  N = 1000 → N < length s → limit_stack s = drop (length s - N) s.
Proof. intros -> Hlong. unfold limit_stack. by rewrite bool_decide_eq_true_2. Qed.

Lemma undo_times_within (N n : nat) wid username (acts s : list Action) w :
  N = 1000 →
  online w = true →
  board wid w = acts → undo_stack wid w = s →
  (∀ y, y ∈ acts → act_username y = username) →
  NoDup (act_drawId <$> acts) →
  n ≤ length acts → length s + n ≤ N →
  let w' := undo_times n wid username w in
  online w' = true
  ∧ board wid w' = take (length acts - n) acts
  ∧ undo_stack wid w' = s ++ reverse (drop (length acts - n) acts).
Proof. intros ->. apply undo_times_within_bound. Qed.

(** One undo more than the bound: the entry pushed first is cut. *)
Lemma undo_times_over (N : nat) wid username (acts : list Action) w :
  N = 1000 →
  online w = true →
  board wid w = acts → undo_stack wid w = [] →
  length acts = S N →
  (∀ y, y ∈ acts → act_username y = username) →
  NoDup (act_drawId <$> acts) →
  undo_stack wid (undo_times (S N) wid username w) = reverse (take N acts).
Proof.
  intros HN Hon Hb Hs Hlen Ho Hnd.
  destruct (undo_times_within N N wid username acts [] w)
    as (Hon' & Hb' & Hs'); [done..|lia|simpl; lia|].
  rewrite Hlen in Hb', Hs'.
  replace (S N - N) with 1 in * by lia.
  destruct (lookup_lt_is_Some_2 acts 0 ltac:(lia)) as [a0 Ha0].
  destruct (lookup_lt_is_Some_2 acts N ltac:(lia)) as [z Hz].
  assert (acts = take N acts ++ [z]) as Hsplit.
  { rewrite <- (take_S_r _ _ _ Hz). symmetry. apply take_ge. lia. }
  rewrite (take_S_r _ _ _ Ha0), take_0 in Hb'.
  assert (moved username (board wid (undo_times N wid username w))
          = λ to, ([], to ++ [a0])) as Hmv.
  { rewrite Hb'. apply (single_action_group username []).
    - intros y Hy. apply Ho. apply list_elem_of_singleton in Hy as ->.
      by eapply list_elem_of_lookup_2.
    - change ([] ++ [a0]) with (take 1 ([] ++ [a0])).
      rewrite <- (take_0 acts) at 1. rewrite <- (take_S_r _ _ _ Ha0).
      rewrite take_take, fmap_take.
      eapply sublist_NoDup; eauto using sublist_take. }
  unfold undo_times in *. rewrite Nat.iter_succ.
  rewrite handleUndo_stack, Hmv by done. cbn [snd]. rewrite Hs'.
  rewrite app_nil_l, <- reverse_cons, <- (drop_S _ _ _ Ha0), drop_0.
  rewrite (limit_stack_over N) by (rewrite ?length_reverse; lia).
  rewrite length_reverse, Hlen.
  replace (S N - N) with 1 by lia.
  rewrite Hsplit at 1. by rewrite reverse_snoc.
Qed.

(** *** Redo after undo *)


Lemma online_store_board wid b w : online (store_board wid b w) = online w.
Proof. by world w. Qed.

Lemma board_store_board wid b w : board wid (store_board wid b w) = b.
Proof. unfold board, store_board. world w. run. by rewrite lookup_insert_eq. Qed.

Lemma cache_store_board wid b w :
  localCache (service (store_board wid b w))
  = <[to_key wid := b]> (localCache (service w)).
Proof. by world w. Qed.

Lemma undo_stack_store_board wid b w :
  undo_stack wid (store_board wid b w) = undo_stack wid w.
Proof.
  unfold undo_stack. rewrite online_store_board.
  destruct (online w) eqn:Hon; [|done].
  unfold stored_list, store_board. world w. run. rewrite Hon.
  by rewrite replaced_lookup_ne by apply data_key_ne_undo_key.
Qed.


(** *** The textbox-text filter *)





(** *** What the mutations leave alone *)

Lemma outbox_commit wid b s w : outbox (commit wid b s w) = outbox w.
Proof. by world w. Qed.

Lemma outbox_store_board wid b w : outbox (store_board wid b w) = outbox w.
Proof. by world w. Qed.

Lemma identity_commit wid b s w :
  nodeId (service (commit wid b s w)) = nodeId (service w)
  ∧ now (commit wid b s w) = now w.
Proof. by world w. Qed.

Lemma identity_store_board wid b w :
  nodeId (service (store_board wid b w)) = nodeId (service w)
  ∧ now (store_board wid b w) = now w.
Proof. by world w. Qed.

Lemma online_cleared wid w : online (cleared wid w) = online w.
Proof. unfold cleared. world w. run. by destruct conn, up. Qed.

Lemma identity_cleared wid w :
  nodeId (service (cleared wid w)) = nodeId (service w)
  ∧ now (cleared wid w) = now w.
Proof. unfold cleared. world w. run. by destruct conn, up. Qed.

Lemma cache_cleared wid w :
  localCache (service (cleared wid w)) = delete (to_key wid) (localCache (service w)).
Proof. unfold cleared. world w. run. by destruct conn, up. Qed.

Lemma outbox_cleared wid w :
  outbox (cleared wid w)
  = outbox w ++ (if online w
                 then [(CHANNEL_WHITEBOARD_EVENTS, stamped (clear_event wid) w)]
                 else []).
Proof.
  unfold cleared, outbox. world w. run.
  destruct conn, up; cbn; by rewrite ?app_nil_r.
Qed.


(* ===================================================================== *)
(** * The properties of the specification *)
(* ===================================================================== *)

(* ===================================================================== *)
(** ** Remote events *)
(* ===================================================================== *)

(** C1. An event whose node id is the node's own id is ignored by
    [handleRemoteEvent]: the call returns, the cache is the same for
    every board, no registered callback is called, and in fact the whole
    state of the node is as before. *)
Theorem handleRemoteEvent_ignores_own_event (w : World) (message : Event) :
  ev_nodeId message = Some (nodeId (service w)) →
  let w' := exec (handleRemoteEvent message) w in
  result (handleRemoteEvent message) w = Normal tt
  ∧ (∀ wid, localCache (service w') !! wid = localCache (service w) !! wid)
  ∧ calls w' = calls w
  ∧ w' = w.
Proof.
  intros Hself. unfold handleRemoteEvent, seq_str.
  world w. run. cbn in Hself.
  rewrite bool_decide_eq_true_2 by done. auto.
Qed.

Lemma handleRemoteEvent_ignores_own_event_witness :
  let w := Sample.node true true {["board"%string := [Sample.pen "ann" "1" 5]]} ∅ in
  let message := mkEvent "update" Sample.B (Some "pen"%string) (Some []) None
                         (Some "node-1"%string) (Some 1700000000001%Z) in
  ev_nodeId message = Some (nodeId (service w))
  ∧ exec (handleRemoteEvent message) w = w.
Proof.
  split; [reflexivity|].
  apply (handleRemoteEvent_ignores_own_event
           (Sample.node true true {["board"%string := [Sample.pen "ann" "1" 5]]} ∅)).
  reflexivity.
Defined.

(** An event of another node does reach the cache and the callbacks. *)
Lemma handleRemoteEvent_applies_foreign_update (w : World) (message : Event) wid data :
  ev_nodeId message ≠ Some (nodeId (service w)) →
  ev_type message = "update"%string →
  ev_wid message = Some wid → wid ≠ EmptyString →
  ev_data message = Some data →
  let w' := exec (handleRemoteEvent message) w in
  localCache (service w') !! wid = Some data
  ∧ calls w' = calls w ++ map (λ h, (h, message)) (eventHandlers (service w)).
Proof.
  intros Hne Hty Hwid Hnz Hdata. unfold handleRemoteEvent, seq_str.
  world w. run. cbn in Hne.
  rewrite bool_decide_eq_false_2 by done.
  rewrite Hty, Hwid, Hdata. cbn.
  destruct (String.eqb_spec wid EmptyString) as [->|_]; [done|]. cbn.
  by rewrite lookup_insert_eq.
Qed.

(* ===================================================================== *)
(** ** The adapter when it is not ready *)
(* ===================================================================== *)

(** C7. While [isConnected] is false, each of [publish], [subscribe],
    [get], [set], [delete], [listPush], [listGetAll] and [listReplace]
    returns normally, with [false] for the operations that report
    success, [null] for [get] and the empty array for the list read, and
    leaves the state as it was. *)
Theorem adapter_not_ready_sentinels (w : World) :
  isConnected (redisAdapter w) = false →
  ∀ (channel key : string) (message : Event) (h : handler) (value : jsval)
    (ttl : option Z) (item : Action) (items : list Action),
    RedisAdapter.publish channel message w = (Normal false, w)
    ∧ RedisAdapter.subscribe channel h w = (Normal false, w)
    ∧ RedisAdapter.get key w = (Normal None, w)
    ∧ RedisAdapter.set key value ttl w = (Normal false, w)
    ∧ RedisAdapter.delete key w = (Normal false, w)
    ∧ RedisAdapter.listPush key item w = (Normal false, w)
    ∧ RedisAdapter.listGetAll key w = (Normal [], w)
    ∧ RedisAdapter.listReplace key items w = (Normal false, w).
Proof.
  intros Hoff channel key message h value ttl item items.
  unfold RedisAdapter.publish, RedisAdapter.subscribe, RedisAdapter.get,
    RedisAdapter.set, RedisAdapter.delete, RedisAdapter.listPush,
    RedisAdapter.listGetAll, RedisAdapter.listReplace.
  world w. run. cbn in Hoff. subst conn. cbn. repeat split.
Qed.

Lemma adapter_not_ready_sentinels_witness :
  let w := Sample.node false true ∅
             {["whiteboard:data:board"%string := EList [Sample.pen "ann" "1" 5]]} in
  isConnected (redisAdapter w) = false
  ∧ RedisAdapter.listGetAll "whiteboard:data:board" w = (Normal [], w)
  ∧ RedisAdapter.get "whiteboard:data:board" w = (Normal None, w)
  ∧ RedisAdapter.delete "whiteboard:data:board" w = (Normal false, w).
Proof.
  pose proof (adapter_not_ready_sentinels
    (Sample.node false true ∅
       {["whiteboard:data:board"%string := EList [Sample.pen "ann" "1" 5]]})
    eq_refl "whiteboard:events"%string "whiteboard:data:board"%string
    (clear_event Sample.B) 0 JNull None (Sample.pen "ann" "1" 5) [])
    as (_ & _ & Hget & _ & Hdel & _ & Hall & _).
  split; [reflexivity|]. split; [exact Hall|]. split; [exact Hget|exact Hdel].
Defined.

(* ===================================================================== *)
(** ** Clearing a board *)
(* ===================================================================== *)




(* ===================================================================== *)
(** ** Subscribing twice to a channel *)
(* ===================================================================== *)

(** C8, as the code has it.  Two calls of [subscribe] on one channel,
    with the adapter online, both report success.  The [handlers] map of
    the adapter then holds the later handler alone for the channel.  But
    messages are not dispatched through that map: each call has given
    the subscriber connection a listener of its own, bound to its own
    handler, and no call takes a listener away.  A message that arrives
    on the channel afterwards is handed to the earlier handler and then
    to the later one. *)
Theorem subscribe_twice_calls_both (w : World) (channel : string)
    (handler1 handler2 : handler) (message : Event) :
  let w1 := exec (RedisAdapter.subscribe channel handler1) w in
  let w2 := exec (RedisAdapter.subscribe channel handler2) w1 in
  let before := default [] (listeners (client (redisAdapter w)) !! channel) in
  online w = true →
  result (RedisAdapter.subscribe channel handler1) w = Normal true
  ∧ result (RedisAdapter.subscribe channel handler2) w1 = Normal true
  ∧ handlers (redisAdapter w2) !! channel = Some handler2
  ∧ listeners (client (redisAdapter w2)) !! channel
    = Some (before ++ [handler1; handler2])
  ∧ calls (exec (Client.deliver channel message) w2)
    = calls w ++ map (λ h, (h, message)) before
        ++ [(handler1, message); (handler2, message)].
Proof.
  unfold RedisAdapter.subscribe, Client.subscribe, Client.deliver.
  world w. run. intros Hon.
  apply andb_true_iff in Hon as [-> ->]. cbn.
  rewrite !lookup_insert_eq. cbn.
  rewrite <- !app_assoc, map_app. cbn. repeat split.
Qed.

Lemma subscribe_twice_calls_both_witness :
  let w := Sample.node true true ∅ ∅ in
  let message := clear_event Sample.B in
  let w2 := exec (RedisAdapter.subscribe "whiteboard:events" 2)
              (exec (RedisAdapter.subscribe "whiteboard:events" 1) w) in
  online w = true
  ∧ handlers (redisAdapter w2) !! "whiteboard:events"%string = Some 2
  ∧ calls (exec (Client.deliver "whiteboard:events" message) w2)
    = [(1, message); (2, message)].
Proof.
  intros w message w2.
  destruct (subscribe_twice_calls_both w "whiteboard:events" 1 2 message eq_refl)
    as (_ & _ & Hmap & _ & Hcalls).
  split; [reflexivity|]. split; [exact Hmap|exact Hcalls].
Defined.

(** C8 as it is stated fails: after a second [subscribe] on the channel,
    a message is still handed to the first handler. *)
Lemma subscribe_does_not_replace_listener :
  let w := Sample.node true true ∅ ∅ in
  let message := clear_event Sample.B in
  let w2 := exec (RedisAdapter.subscribe "whiteboard:events" 2)
              (exec (RedisAdapter.subscribe "whiteboard:events" 1) w) in
  let w3 := exec (Client.deliver "whiteboard:events" message) w2 in
  (1, message) ∈ calls w3
  ∧ calls w3 ≠ [(2, message)].
Proof.
  vm_compute. split; [|discriminate]. left.
Qed.

(* ===================================================================== *)
(** ** Drawing *)
(* ===================================================================== *)



(* ===================================================================== *)
(** ** The entry point *)
(* ===================================================================== *)




(* ===================================================================== *)
(** ** Undo *)
(* ===================================================================== *)




(** C5. After any call of [handleUndo] the undo stack that
    [getUndoStack] reads has at most 1000 entries.  When the adapter is
    online and the push makes the stack longer than 1000, what is stored
    is the stack without its oldest entries, the newest 1000.  In
    particular, on a board of 1001 actions of one user with pairwise
    distinct drawIds and an empty stack, 1001 undos leave exactly 1000
    entries: all the actions but the one undone first. *)
Theorem undo_stack_bounded (w : World) (wid username : option string) :
  (∃ s, result (getUndoStack wid) (exec (handleUndo wid username) w) = Normal s
        ∧ length s ≤ 1000)
  ∧ (∀ savedBoard undoStack rest pushed,
       online w = true →
       result (loadStoredData wid) w = Normal savedBoard →
       result (getUndoStack wid) w = Normal undoStack →
       find_group (length savedBoard) username savedBoard undoStack
       = Normal (rest, pushed) →
       1000 < length pushed →
       result (getUndoStack wid) (exec (handleUndo wid username) w)
       = Normal (drop (length pushed - 1000) pushed))
  ∧ (∀ acts,
       online w = true →
       result (loadStoredData wid) w = Normal acts →
       result (getUndoStack wid) w = Normal [] →
       length acts = 1001 →
       (∀ y, y ∈ acts → act_username y = username) →
       NoDup (act_drawId <$> acts) →
       ∃ s, result (getUndoStack wid) (undo_times 1001 wid username w) = Normal s
            ∧ s = reverse (take 1000 acts)
            ∧ length s = 1000
            ∧ ∀ a, last acts = Some a → a ∉ s).
Proof.
  split; [|split].
  - eexists. split; [apply getUndoStack_result|].
    rewrite handleUndo_exec, undo_stack_commit.
    destruct (online w); [apply limit_stack_length|simpl; lia].
  - intros savedBoard undoStack rest pushed Hon Hload Hstack Hloop Hlong.
    rewrite loadStoredData_result in Hload. injection Hload as <-.
    rewrite getUndoStack_result in Hstack. injection Hstack as <-.
    rewrite find_group_all in Hloop. injection Hloop as Hmoved.
    fold (moved username (board wid w) (undo_stack wid w)) in Hmoved.
    rewrite getUndoStack_result, handleUndo_stack, Hmoved by done.
    cbn [snd]. by rewrite (limit_stack_over 1000).
  - intros acts Hon Hload Hstack Hlen Ho Hnd.
    rewrite loadStoredData_result in Hload. injection Hload as Hb.
    rewrite getUndoStack_result in Hstack. injection Hstack as Hs.
    remember 1000 as N eqn:HN.
    exists (reverse (take N acts)).
    split; [|split; [done|split]].
    + rewrite getUndoStack_result. f_equal. by apply undo_times_over.
    + rewrite length_reverse, length_take, Hlen. lia.
    + intros a Hlast.
      assert (acts = take N acts ++ drop N acts) as Hsplit
        by (by rewrite take_drop).
      rewrite elem_of_reverse. intros Hin.
      apply NoDup_fmap_1 in Hnd. rewrite Hsplit in Hnd.
      apply NoDup_app in Hnd as (_ & Hdisj & _).
      apply (Hdisj a Hin).
      rewrite Hsplit, last_app in Hlast.
      destruct (last (drop N acts)) as [b|] eqn:Hl.
      * injection Hlast as <-. by apply last_Some_elem_of.
      * apply last_None in Hl. apply (f_equal length) in Hl.
        rewrite length_drop, Hlen in Hl. simpl in Hl. lia.
Qed.

Lemma undo_stack_bounded_witness :
  let w := Sample.node true true {["board"%string := Sample.strokes 1001]} ∅ in
  online w = true
  ∧ length (Sample.strokes 1001) = 1001
  ∧ result (getUndoStack Sample.B) (undo_times 1001 Sample.B Sample.U w)
    = Normal (reverse (take 1000 (Sample.strokes 1001))).
Proof.
  intros w.
  assert (result (loadStoredData Sample.B) w = Normal (Sample.strokes 1001))
    as Hload by (vm_compute; reflexivity).
  assert (result (getUndoStack Sample.B) w = Normal []) as Hstack
    by (vm_compute; reflexivity).
  assert (∀ y, y ∈ Sample.strokes 1001 → act_username y = Sample.U) as Ho.
  { apply Forall_forall. apply (bool_decide_unpack _). vm_compute. exact I. }
  assert (NoDup (act_drawId <$> Sample.strokes 1001)) as Hnd.
  { apply (bool_decide_unpack _). vm_compute. exact I. }
  destruct (undo_stack_bounded w Sample.B Sample.U) as (_ & _ & Hall).
  destruct (Hall (Sample.strokes 1001) eq_refl Hload Hstack eq_refl Ho Hnd)
    as (s & Hs & -> & _).
  split; [reflexivity|]. split; [reflexivity|exact Hs].
Defined.

(** C10. With the adapter not ready, [handleUndo] on a board holding an
    action of the user still takes the user's most recent group out of
    the cached board, but nothing is written to the server;
    [saveUndoStack] does nothing, [getUndoStack] returns the empty array,
    and a following [handleRedo] leaves the whole state, and so the
    action list, as the undo left it. *)
Theorem undo_not_ready_is_lost (w : World) (wid username : option string)
    (savedBoard : list Action) (x : Action) :
  isConnected (redisAdapter w) = false →
  result (loadStoredData wid) w = Normal savedBoard →
  x ∈ savedBoard → act_username x = username →
  ∃ a, most_recent username savedBoard = Some a ∧
    let w1 := exec (handleUndo wid username) w in
    result (handleUndo wid username) w = Normal tt
    ∧ localCache (service w1) !! to_key wid
      = Some (others (act_drawId a) username savedBoard)
    ∧ redisAdapter w1 = redisAdapter w
    ∧ (∀ stack, saveUndoStack wid stack w1 = (Normal tt, w1))
    ∧ getUndoStack wid w1 = (Normal [], w1)
    ∧ handleRedo wid username w1 = (Normal tt, w1).
Proof.
  intros Hoff Hload Hin Ho.
  rewrite loadStoredData_result in Hload. injection Hload as <-.
  destruct (most_recent_exists _ _ _ Hin Ho) as [a Ha].
  exists a. split; [done|]. cbv zeta.
  pose proof (online_false_of_not_ready _ Hoff) as Hon.
  unfold exec, result. rewrite handleUndo_run. cbn [fst snd].
  unfold moved. rewrite Ha. cbn [fst snd].
  rewrite commit_offline by done.
  set (b := others _ _ _).
  assert (online (with_localCache <[to_key wid:=b]> w) = false) as Hon'
    by (by rewrite online_cache).
  split; [done|]. split; [|split; [done|split; [intros stack|split]]].
  - revert Hoff. world w. run. intros _. by rewrite lookup_insert_eq.
  - rewrite saveUndoStack_run. by rewrite Hon'.
  - rewrite getUndoStack_run. unfold undo_stack. by rewrite Hon'.
  - rewrite handleRedo_run. cbv zeta.
    assert (undo_stack wid (with_localCache <[to_key wid:=b]> w) = []) as ->
      by (unfold undo_stack; by rewrite Hon').
    unfold moved, most_recent. rewrite filter_nil. cbn [last fst snd].
    rewrite commit_offline by done.
    f_equal. unfold board. world w. run.
    rewrite lookup_insert_eq. by rewrite insert_insert_eq.
Qed.

Lemma undo_not_ready_is_lost_witness :
  let w := Sample.node false false
             {["board"%string := [Sample.pen "bob" "4" 2; Sample.pen "ann" "7" 5]]} ∅ in
  let w1 := exec (handleUndo Sample.B Sample.U) w in
  isConnected (redisAdapter w) = false
  ∧ localCache (service w1) !! "board"%string = Some [Sample.pen "bob" "4" 2]
  ∧ getUndoStack Sample.B w1 = (Normal [], w1)
  ∧ handleRedo Sample.B Sample.U w1 = (Normal tt, w1).
Proof.
  intros w.
  assert (result (loadStoredData Sample.B) w
          = Normal [Sample.pen "bob" "4" 2; Sample.pen "ann" "7" 5]) as Hload
    by (vm_compute; reflexivity).
  assert (Sample.pen "ann" "7" 5 ∈ [Sample.pen "bob" "4" 2; Sample.pen "ann" "7" 5])
    as Hin by (apply (bool_decide_unpack _); vm_compute; exact I).
  destruct (undo_not_ready_is_lost w Sample.B Sample.U _ _ eq_refl Hload Hin eq_refl)
    as (a & Ha & _ & Hcache & _ & _ & Hget & Hredo).
  injection Ha as <-.
  split; [reflexivity|]. split; [exact Hcache|]. split; [exact Hget|exact Hredo].
Defined.

(* ===================================================================== *)
(** ** Undo followed by redo *)
(* ===================================================================== *)




(* ===================================================================== *)
(** * Further properties of the code *)
(* ===================================================================== *)

(* ===================================================================== *)
(** ** The adapter *)
(* ===================================================================== *)

Ltac adapter_ops :=
  unfold RedisAdapter.publish, RedisAdapter.subscribe, RedisAdapter.unsubscribe,
    RedisAdapter.get, RedisAdapter.set, RedisAdapter.delete, RedisAdapter.listPush,
    RedisAdapter.listGetAll, RedisAdapter.listReplace,
    Client.publish, Client.subscribe, Client.unsubscribe, Client.get, Client.set,
    Client.setEx, Client.del, Client.rPush, Client.lRange, Client.deliver.

(** X1. No operation of the adapter ever throws, whatever the state of
    the connection and whatever the keys hold: a command that the client
    rejects ends in the [catch] of the operation. *)
Theorem adapter_never_throws (w : World) (channel key : string)
    (message : Event) (h : handler) (value : jsval) (ttl : option Z)
    (item : Action) (items : list Action) :
  result (RedisAdapter.publish channel message) w ≠ Throw
  ∧ result (RedisAdapter.subscribe channel h) w ≠ Throw
  ∧ result (RedisAdapter.unsubscribe channel) w ≠ Throw
  ∧ result (RedisAdapter.get key) w ≠ Throw
  ∧ result (RedisAdapter.set key value ttl) w ≠ Throw
  ∧ result (RedisAdapter.delete key) w ≠ Throw
  ∧ result (RedisAdapter.listPush key item) w ≠ Throw
  ∧ result (RedisAdapter.listGetAll key) w ≠ Throw
  ∧ result (RedisAdapter.listReplace key items) w ≠ Throw.
Proof.
  adapter_ops. world w. run.
  destruct conn, up; cbn; repeat split; try discriminate;
    repeat first [case_bool_decide | case_match]; cbn;
    rewrite ?lookup_delete_eq; discriminate.
Qed.

(** X2. While the adapter believes it is connected but the client
    rejects its commands, every operation returns the failure value of
    its kind and leaves the server and the state as they were; only
    [subscribe] still records its handler in the [handlers] map, though
    no listener was registered. *)
Theorem adapter_link_down_sentinels (w : World) (channel key : string)
    (message : Event) (h : handler) (value : jsval) (ttl : option Z)
    (item : Action) (items : list Action) :
  isConnected (redisAdapter w) = true →
  link_up (client (redisAdapter w)) = false →
  RedisAdapter.publish channel message w = (Normal false, w)
  ∧ RedisAdapter.unsubscribe channel w = (Normal false, w)
  ∧ RedisAdapter.get key w = (Normal None, w)
  ∧ RedisAdapter.set key value ttl w = (Normal false, w)
  ∧ RedisAdapter.delete key w = (Normal false, w)
  ∧ RedisAdapter.listPush key item w = (Normal false, w)
  ∧ RedisAdapter.listGetAll key w = (Normal [], w)
  ∧ RedisAdapter.listReplace key items w = (Normal false, w)
  ∧ RedisAdapter.subscribe channel h w
    = (Normal false, with_handlers (λ hs, <[channel := h]> hs) w)
  ∧ client (redisAdapter (exec (RedisAdapter.subscribe channel h) w))
    = client (redisAdapter w).
Proof.
  adapter_ops. world w. run. cbn. intros -> ->. cbn.
  repeat split. destruct ttl as [n|]; [|done]. by case_bool_decide.
Qed.

Lemma adapter_link_down_sentinels_witness :
  let w := Sample.node true false ∅
             {["whiteboard:data:board"%string := EList [Sample.pen "ann" "1" 5]]} in
  isConnected (redisAdapter w) = true
  ∧ link_up (client (redisAdapter w)) = false
  ∧ RedisAdapter.listGetAll "whiteboard:data:board" w = (Normal [], w)
  ∧ handlers (redisAdapter (exec (RedisAdapter.subscribe "whiteboard:events" 3) w))
    !! "whiteboard:events"%string = Some 3.
Proof.
  intros w.
  destruct (adapter_link_down_sentinels w "whiteboard:events" "whiteboard:data:board"
              (clear_event Sample.B) 3 JNull None (Sample.pen "ann" "1" 5) []
              eq_refl eq_refl)
    as (_ & _ & _ & _ & _ & _ & Hall & _ & Hsub & _).
  split; [reflexivity|]. split; [reflexivity|]. split; [exact Hall|].
  unfold exec. rewrite Hsub. reflexivity.
Defined.



Lemma replaced_entry key items (m : gmap string entry) :
  replaced key items m !! key
  = if bool_decide (0 < length items) then Some (EList items) else None.
Proof.
  unfold replaced. case_bool_decide.
  - by rewrite lookup_insert_eq.
  - by rewrite lookup_delete_eq.
Qed.

(** X4. With the adapter online, [listGetAll] returns exactly the items
    that [listReplace] wrote, whatever the key held before; replacing
    with the empty array leaves no key behind.  [listPush] on a key that
    is absent or holds a list adds its item at the end.  No other key is
    touched. *)
Theorem adapter_list_round_trip (w : World) (key : string)
    (item : Action) (items : list Action) :
  online w = true →
  let w1 := exec (RedisAdapter.listReplace key items) w in
  let w2 := exec (RedisAdapter.listPush key item) w1 in
  result (RedisAdapter.listReplace key items) w = Normal true
  ∧ result (RedisAdapter.listGetAll key) w1 = Normal items
  ∧ (items = [] → db (client (redisAdapter w1)) !! key = None)
  ∧ result (RedisAdapter.listPush key item) w1 = Normal true
  ∧ result (RedisAdapter.listGetAll key) w2 = Normal (items ++ [item])
  ∧ (∀ key', key' ≠ key →
       db (client (redisAdapter w2)) !! key' = db (client (redisAdapter w)) !! key').
Proof.
  intros Hon w1 w2.
  assert (w1 = with_db (replaced key items) w) as Hw1
    by (subst w1; unfold exec; by rewrite adapter_listReplace_run, Hon).
  assert (RedisAdapter.listPush key item w1
          = (Normal true, with_db (λ m, <[key := EList (items ++ [item])]> m) w1))
    as Hpush.
  { rewrite Hw1. revert Hon. adapter_ops. world w. run. intros Hon.
    apply andb_true_iff in Hon as [-> ->]. cbn.
    rewrite replaced_entry. case_bool_decide as Hlen; cbn; [done|].
    destruct items; [done|simpl in Hlen; lia]. }
  assert (w2 = with_db (λ m, <[key := EList (items ++ [item])]> m) w1) as Hw2
    by (subst w2; unfold exec; by rewrite Hpush).
  assert (online w1 = true) as Hon1 by (rewrite Hw1; revert Hon; by world w).
  assert (online w2 = true) as Hon2 by (rewrite Hw2; revert Hon1; by world w1).
  split; [unfold result; by rewrite adapter_listReplace_run, Hon|].
  split; [|split; [|split; [|split]]].
  - unfold result. rewrite adapter_listGetAll_run, Hon1. cbn [fst]. f_equal.
    rewrite Hw1. unfold stored_list. world w. run. apply replaced_lookup.
  - intros ->. rewrite Hw1. world w. run. apply lookup_delete_eq.
  - unfold result. by rewrite Hpush.
  - unfold result. rewrite adapter_listGetAll_run, Hon2. cbn [fst]. f_equal.
    rewrite Hw2. unfold stored_list. world w1. run. by rewrite lookup_insert_eq.
  - intros key' Hne. rewrite Hw2, Hw1. world w. run.
    rewrite lookup_insert_ne by done. by apply replaced_lookup_ne.
Qed.

Lemma adapter_list_round_trip_witness :
  let w := Sample.node true true ∅ {["notes"%string := EString (JStr "old") None]} in
  let items := [Sample.pen "ann" "1" 5; Sample.pen "bob" "2" 6] in
  online w = true
  ∧ result (RedisAdapter.listGetAll "notes")
      (exec (RedisAdapter.listReplace "notes" items) w) = Normal items.
Proof.
  intros w items.
  destruct (adapter_list_round_trip w "notes" (Sample.pen "ann" "3" 7) items eq_refl)
    as (_ & Hget & _).
  split; [reflexivity|exact Hget].
Defined.

(** X5. A key that holds the other kind of value reads as missing and is
    not written: with the adapter online, [get] on a key that holds a
    list returns [null], [listGetAll] on a key that holds a string
    returns the empty array, and [listPush] on such a key reports
    failure; none of them changes the state. *)
Theorem adapter_wrong_type_absorbed (w : World) (key : string) (item : Action) :
  online w = true →
  (∀ items, db (client (redisAdapter w)) !! key = Some (EList items) →
     RedisAdapter.get key w = (Normal None, w))
  ∧ (∀ v ttl, db (client (redisAdapter w)) !! key = Some (EString v ttl) →
       RedisAdapter.listGetAll key w = (Normal [], w)
       ∧ RedisAdapter.listPush key item w = (Normal false, w)).
Proof.
  adapter_ops. world w. run. intros Hon.
  apply andb_true_iff in Hon as [-> ->]. cbn.
  split; [intros items ->|intros v ttl ->]; done.
Qed.

Lemma adapter_wrong_type_absorbed_witness :
  let w := Sample.node true true ∅ {["notes"%string := EString (JStr "old") None]} in
  online w = true
  ∧ RedisAdapter.listPush "notes" (Sample.pen "ann" "3" 7) w = (Normal false, w).
Proof.
  intros w.
  destruct (adapter_wrong_type_absorbed w "notes" (Sample.pen "ann" "3" 7) eq_refl)
    as [_ Hstr].
  destruct (Hstr (JStr "old") None eq_refl) as [_ Hpush].
  split; [reflexivity|exact Hpush].
Defined.

(** X6. With the adapter online, [unsubscribe] removes the handler of
    the channel from the [handlers] map and every listener of the
    channel from the connection, however many [subscribe] calls came
    before: a message on the channel then calls nobody.  The listeners
    of other channels stay. *)
Theorem adapter_unsubscribe_silences (w : World) (channel : string)
    (handler1 handler2 : handler) (message : Event) :
  online w = true →
  let w2 := exec (RedisAdapter.subscribe channel handler2)
              (exec (RedisAdapter.subscribe channel handler1) w) in
  let w3 := exec (RedisAdapter.unsubscribe channel) w2 in
  result (RedisAdapter.unsubscribe channel) w2 = Normal true
  ∧ handlers (redisAdapter w3) !! channel = None
  ∧ listeners (client (redisAdapter w3)) !! channel = None
  ∧ calls (exec (Client.deliver channel message) w3) = calls w
  ∧ (∀ other, other ≠ channel →
       listeners (client (redisAdapter w3)) !! other
       = listeners (client (redisAdapter w)) !! other).
Proof.
  adapter_ops. world w. run. intros Hon.
  apply andb_true_iff in Hon as [-> ->]. cbn.
  rewrite !lookup_delete_eq. cbn. rewrite app_nil_r.
  repeat split; try done.
  intros other Hne. by rewrite lookup_delete_ne, !lookup_insert_ne.
Qed.

Lemma adapter_unsubscribe_silences_witness :
  let w := Sample.node true true ∅ ∅ in
  let w3 := exec (RedisAdapter.unsubscribe "whiteboard:events")
              (exec (RedisAdapter.subscribe "whiteboard:events" 2)
                 (exec (RedisAdapter.subscribe "whiteboard:events" 1) w)) in
  online w = true
  ∧ calls (exec (Client.deliver "whiteboard:events" (clear_event Sample.B)) w3) = [].
Proof.
  intros w w3.
  destruct (adapter_unsubscribe_silences w "whiteboard:events" 1 2
              (clear_event Sample.B) eq_refl)
    as (_ & _ & _ & Hcalls & _).
  split; [reflexivity|exact Hcalls].
Defined.

(* ===================================================================== *)
(** ** Loading, copying and seeding a board *)
(* ===================================================================== *)

Arguments initialize : simpl never.
Arguments copyStoredData : simpl never.
Arguments saveData : simpl never.

(** The cache entry written and then saved: the tail of
    [saveDrawingAction], [copyStoredData] and [saveData]. *)
Lemma store_board_run wid b w :
  bind (modify (with_localCache <[to_key wid := b]>)) (λ _, saveToDB wid) w
  = (Normal tt, store_board wid b w).
Proof.
  unfold bind at 1. unfold modify at 1.
  rewrite saveToDB_run. f_equal.
  unfold store_board. world w. run.
  destruct conn, up; cbn; rewrite ?lookup_insert_eq; reflexivity.
Qed.


Lemma board_cache_insert wid b w :
  board wid (with_localCache <[to_key wid := b]> w) = b.
Proof. unfold board. world w. run. by rewrite lookup_insert_eq. Qed.

Lemma stored_list_store_board wid b w :
  online w = true →
  stored_list (WHITEBOARD_PREFIX +:+ to_key wid) (store_board wid b w) = b.
Proof.
  intros Hon. unfold stored_list, store_board. world w. run. rewrite Hon.
  apply replaced_lookup.
Qed.


(** X8. A board first loaded while the adapter is not online is cached
    as the empty board, and that empty board is what [loadStoredData]
    keeps returning once the adapter is online again, whatever the server
    holds for the board; loaded for the first time with the adapter
    online, the same board is the stored list. *)
Theorem offline_load_hides_stored_board (w : World) (wid : option string) :
  localCache (service w) !! to_key wid = None →
  online w = false →
  let w1 := exec (loadStoredData wid) w in
  result (loadStoredData wid) w = Normal []
  ∧ result (loadStoredData wid) (with_connection true true w1) = Normal []
  ∧ result (loadStoredData wid) (with_connection true true w)
    = Normal (stored_list (WHITEBOARD_PREFIX +:+ to_key wid) w).
Proof.
  intros Hmiss Hoff. cbv zeta. unfold exec.
  rewrite !loadStoredData_result, loadStoredData_run. cbn [snd].
  assert (board wid w = []) as Hb by (unfold board; by rewrite Hmiss, Hoff).
  rewrite Hb. split; [done|]. split; f_equal.
  - unfold board, with_connection. world w. run. by rewrite lookup_insert_eq.
  - unfold board, with_connection, stored_list. world w. run. cbn in Hmiss.
    by rewrite Hmiss.
Qed.

Lemma offline_load_hides_stored_board_witness :
  let w := Sample.node false false ∅
             {["whiteboard:data:board"%string := EList [Sample.pen "ann" "1" 5]]} in
  let w1 := exec (loadStoredData Sample.B) w in
  online w = false
  ∧ result (loadStoredData Sample.B) (with_connection true true w1) = Normal []
  ∧ result (loadStoredData Sample.B) (with_connection true true w)
    = Normal [Sample.pen "ann" "1" 5].
Proof.
  intros w w1.
  destruct (offline_load_hides_stored_board w Sample.B eq_refl eq_refl)
    as (_ & Hstuck & Hfresh).
  split; [reflexivity|]. split; [exact Hstuck|exact Hfresh].
Defined.

Lemma copyStoredData_run sourceWid targetWid w :
  copyStoredData sourceWid targetWid w
  = let s := board sourceWid w in
    let w1 := with_localCache <[to_key sourceWid := s]> w in
    let t := board targetWid w1 in
    let w2 := with_localCache <[to_key targetWid := t]> w1 in
    (Normal tt,
     if bool_decide (length s = 0) || bool_decide (0 < length t)
     then w2 else store_board targetWid s w2).
Proof.
  unfold copyStoredData.
  rewrite (bind_run _ _ _ _ _ (loadStoredData_run sourceWid w)).
  rewrite (bind_run _ _ _ _ _ (loadStoredData_run targetWid _)).
  cbv zeta. destruct (_ || _); [done|].
  by rewrite store_board_run.
Qed.



(** Copying a board onto itself changes neither the board nor the
    server. *)
Lemma copyStoredData_self (w : World) (wid : option string) :
  let w' := exec (copyStoredData wid wid) w in
  board wid w' = board wid w ∧ redisAdapter w' = redisAdapter w.
Proof.
  cbv zeta. unfold exec. rewrite copyStoredData_run. cbv zeta. cbn [snd].
  rewrite board_cache_insert.
  destruct (board wid w) as [|a s] eqn:Hb; cbn [length].
  - rewrite bool_decide_eq_true_2 by done. cbn [orb].
    split; [by rewrite board_cache_insert|by world w].
  - rewrite (bool_decide_eq_true_2 (0 < S _)) by lia. rewrite orb_true_r.
    split; [by rewrite board_cache_insert|by world w].
Qed.

Lemma saveData_run JSON_parse wid data w :
  saveData JSON_parse wid data w
  = let existing := board wid w in
    let w1 := with_localCache <[to_key wid := existing]> w in
    if bool_decide (0 < length existing) || negb (truthy_str data)
    then (Normal tt, w1)
    else match JSON_parse (default EmptyString data) with
         | Normal parsed => (Normal tt, store_board wid parsed w1)
         | Throw => (Throw, w1)
         end.
Proof.
  unfold saveData.
  rewrite (bind_run _ _ _ _ _ (loadStoredData_run wid w)).
  cbv zeta. destruct (_ || _); [done|].
  unfold bind at 1, lift.
  destruct (JSON_parse _) as [parsed|]; [|done].
  by rewrite store_board_run.
Qed.

(** X10. [saveData] seeds a board only when the board is empty and the
    data is a non-empty string: the board then is what [JSON.parse]
    made of the string, in the cache and, with the adapter online, on
    the server.  A board that holds an action is never overwritten, and
    missing or empty data is ignored: the call then does what
    [loadStoredData] alone does.  When [JSON.parse] throws, the call
    throws and the board stays empty. *)
Theorem saveData_seeds_only_empty_board
    (JSON_parse : string → completion (list Action))
    (w : World) (wid : option string) (data : option string)
    (existing : list Action) :
  result (loadStoredData wid) w = Normal existing →
  let w' := exec (saveData JSON_parse wid data) w in
  (existing ≠ [] ∨ truthy_str data = false →
   saveData JSON_parse wid data w = (Normal tt, exec (loadStoredData wid) w))
  ∧ (∀ text parsed,
       existing = [] → data = Some text → text ≠ EmptyString →
       JSON_parse text = Normal parsed →
       result (saveData JSON_parse wid data) w = Normal tt
       ∧ result (loadStoredData wid) w' = Normal parsed
       ∧ (online w = true →
          stored_list (WHITEBOARD_PREFIX +:+ to_key wid) w' = parsed))
  ∧ (∀ text,
       existing = [] → data = Some text → text ≠ EmptyString →
       JSON_parse text = Throw →
       result (saveData JSON_parse wid data) w = Throw
       ∧ result (loadStoredData wid) w' = Normal []).
Proof.
  intros Hload. cbv zeta.
  rewrite loadStoredData_result in Hload. injection Hload as Hb.
  unfold exec, result. rewrite saveData_run, loadStoredData_run, Hb.
  cbv zeta. cbn [snd].
  assert (∀ text, data = Some text → text ≠ EmptyString → truthy_str data = true)
    as Htruthy.
  { intros text -> Hne. cbn. by destruct (String.eqb_spec text EmptyString). }
  split; [|split].
  - intros [Hne| ->]; [|by rewrite orb_true_r].
    rewrite bool_decide_eq_true_2; [done|]. destruct existing; [done|simpl; lia].
  - intros text parsed -> Hdata Htext Hparse.
    rewrite (Htruthy text Hdata Htext). cbn [length negb orb].
    rewrite bool_decide_eq_false_2 by lia. cbn [orb].
    rewrite Hdata. change (default EmptyString (Some text)) with text.
    rewrite Hparse. cbn [fst snd].
    split; [done|].
    rewrite loadStoredData_run, board_store_board. split; [done|].
    intros Hon. apply stored_list_store_board. revert Hon. by world w.
  - intros text -> Hdata Htext Hparse.
    rewrite (Htruthy text Hdata Htext). cbn [length negb orb].
    rewrite bool_decide_eq_false_2 by lia. cbn [orb].
    rewrite Hdata. change (default EmptyString (Some text)) with text.
    rewrite Hparse. cbn [fst snd].
    split; [done|]. by rewrite loadStoredData_run, board_cache_insert.
Qed.

Lemma saveData_seeds_only_empty_board_witness :
  let JSON_parse := λ text : string,
    if String.eqb text "[pen]" then Normal [Sample.pen "ann" "1" 5] else Throw in
  let w := Sample.node true true {["board"%string := [Sample.pen "bob" "2" 6]]} ∅ in
  result (loadStoredData Sample.B) w = Normal [Sample.pen "bob" "2" 6]
  ∧ saveData JSON_parse Sample.B (Some "[pen]"%string) w
    = (Normal tt, exec (loadStoredData Sample.B) w).
Proof.
  intros JSON_parse w.
  assert (result (loadStoredData Sample.B) w = Normal [Sample.pen "bob" "2" 6])
    as Hload by (vm_compute; reflexivity).
  destruct (saveData_seeds_only_empty_board JSON_parse w Sample.B
              (Some "[pen]"%string) _ Hload) as (Hkeep & _ & _).
  split; [exact Hload|]. apply Hkeep. left. discriminate.
Defined.

(* ===================================================================== *)
(** ** Events of other nodes *)
(* ===================================================================== *)

Lemma handleRemoteEvent_foreign_run (w : World) (message : Event) :
  ev_nodeId message ≠ Some (nodeId (service w)) →
  handleRemoteEvent message w
  = (Normal tt,
     with_calls (λ tr, tr ++ map (λ h, (h, message)) (eventHandlers (service w)))
       (with_localCache (remote_effect message) w)).
Proof.
  intros Hne. unfold handleRemoteEvent, remote_effect, seq_str.
  world w. run. cbn in Hne.
  rewrite bool_decide_eq_false_2 by done.
  destruct (String.eqb (ev_type message) "update" && truthy_str (ev_wid message));
    [done|].
  by destruct (String.eqb (ev_type message) "clear" && truthy_str (ev_wid message)).
Qed.




(** X12. [onRemoteEvent] adds its handler after those registered
    before, and nothing removes or merges handlers: a handler registered
    twice is called twice for each event of another node. *)
Theorem onRemoteEvent_accumulates (w : World) (h : handler) (message : Event) :
  ev_nodeId message ≠ Some (nodeId (service w)) →
  let w1 := exec (onRemoteEvent h) w in
  let w2 := exec (onRemoteEvent h) w1 in
  eventHandlers (service w1) = eventHandlers (service w) ++ [h]
  ∧ calls (exec (handleRemoteEvent message) w1)
    = calls w ++ map (λ g, (g, message)) (eventHandlers (service w)) ++ [(h, message)]
  ∧ calls (exec (handleRemoteEvent message) w2)
    = calls w ++ map (λ g, (g, message)) (eventHandlers (service w))
        ++ [(h, message); (h, message)].
Proof.
  intros Hne. cbv zeta. unfold exec.
  rewrite !handleRemoteEvent_foreign_run by (revert Hne; by world w).
  revert Hne. unfold onRemoteEvent. world w. run. intros _.
  rewrite !map_app. cbn. by rewrite <- !app_assoc.
Qed.

Lemma onRemoteEvent_accumulates_witness :
  let w := Sample.node true true ∅ ∅ in
  let message := clear_event Sample.B in
  ev_nodeId message ≠ Some (nodeId (service w))
  ∧ calls (exec (handleRemoteEvent message)
             (exec (onRemoteEvent 5) (exec (onRemoteEvent 5) w)))
    = [(0, message); (5, message); (5, message)].
Proof.
  intros w message.
  assert (ev_nodeId message ≠ Some (nodeId (service w))) as Hne by discriminate.
  destruct (onRemoteEvent_accumulates w 5 message Hne) as (_ & _ & Htwice).
  split; [exact Hne|exact Htwice].
Defined.

(* ===================================================================== *)
(** ** From one node to the others *)
(* ===================================================================== *)

Lemma handleRemoteEvent_own_run (w : World) (message : Event) :
  ev_nodeId message = Some (nodeId (service w)) →
  handleRemoteEvent message w = (Normal tt, w).
Proof.
  intros Hself. unfold handleRemoteEvent, seq_str. world w. run. cbn in Hself.
  by rewrite bool_decide_eq_true_2.
Qed.

(** The branch of [handleEventsAndData] that mutates the board, in any
    state: it throws only for a textbox-text action, it keeps the
    connection, the node id and the clock, and it publishes nothing but
    the clear event of [clearWhiteboard]. *)
Lemma mutation_any content w :
  ∃ c wm, mutation content w = (c, wm)
    ∧ online wm = online w
    ∧ nodeId (service wm) = nodeId (service w)
    ∧ now wm = now w
    ∧ outbox wm
      = outbox w ++ (if seq_str (act_t content) (Some "clear"%string) && online w
                     then [(CHANNEL_WHITEBOARD_EVENTS,
                            stamped (clear_event (act_wid content)) w)]
                     else [])
    ∧ (c = Throw →
       act_t content = Some "setTextboxText"%string
       ∧ wm = with_localCache
                <[to_key (act_wid content) := board (act_wid content) w]> w).
Proof.
  unfold mutation. cbv zeta.
  destruct (seq_str (act_t content) (Some "clear"%string)) eqn:Hclear.
  { eexists _, _. split; [apply clearWhiteboard_run|].
    rewrite online_cleared, outbox_cleared.
    destruct (identity_cleared (act_wid content) w) as [-> ->]. done. }
  cbn [andb]. rewrite app_nil_r.
  destruct (seq_str (act_t content) (Some "undo"%string)).
  { eexists _, _. split; [apply handleUndo_run|]. cbv zeta.
    rewrite online_commit, outbox_commit.
    by destruct (identity_commit (act_wid content)
      (moved (act_username content) (board (act_wid content) w)
         (undo_stack (act_wid content) w)).1
      (limit_stack (moved (act_username content) (board (act_wid content) w)
         (undo_stack (act_wid content) w)).2) w) as [-> ->]. }
  destruct (seq_str (act_t content) (Some "redo"%string)).
  { eexists _, _. split; [apply handleRedo_run|]. cbv zeta.
    rewrite online_commit, outbox_commit.
    by destruct (identity_commit (act_wid content)
      (moved (act_username content) (undo_stack (act_wid content) w)
         (board (act_wid content) w)).2
      (moved (act_username content) (undo_stack (act_wid content) w)
         (board (act_wid content) w)).1 w) as [-> ->]. }
  destruct (isDrawingTool (act_t content)); [|by eexists _, _].
  rewrite saveDrawingAction_run.
  destruct (kept content (board (act_wid content) w)) as [b|] eqn:Hkept.
  - eexists _, _. split; [done|].
    rewrite online_store_board, outbox_store_board.
    by destruct (identity_store_board (act_wid content)
                   (b ++ [strip_wid content]) w) as [-> ->].
  - eexists _, _. split; [done|].
    repeat split; try (by world w).
    unfold kept, seq_str in Hkept. by case_bool_decide.
Qed.

Lemma with_published_frame f w :
  service (with_published f w) = service w
  ∧ outbox (with_published f w) = f (outbox w).
Proof. by world w. Qed.

(** What [handleEventsAndData] publishes, message by message. *)
Lemma handleEventsAndData_messages content w :
  let w' := exec (handleEventsAndData content) w in
  nodeId (service w') = nodeId (service w)
  ∧ ∃ wm, exec (mutation content) w = wm
    ∧ localCache (service w') = localCache (service wm)
    ∧ published_since w w'
      = (if seq_str (act_t content) (Some "clear"%string) && online w
         then [stamped (clear_event (act_wid content)) w] else [])
        ++ (if online w && bool_decide (result (mutation content) w = Normal tt)
            then [mkEvent "update" (act_wid content) (act_t content)
                          (localCache (service wm) !! to_key (act_wid content))
                          (Some content) (Some (nodeId (service w)))
                          (Some (now w))]
            else []).
Proof.
  cbv zeta.
  destruct (mutation_any content w) as (c & wm & Hm & Hon & Hid & Hnow & Hout & _).
  assert (∀ l1 l2 : list (string * Event), drop (length l1) (l1 ++ l2) = l2)
    as Hdrop by (intros; by rewrite drop_app_length).
  assert (exec (mutation content) w = wm) as Hex by (unfold exec; by rewrite Hm).
  assert (result (mutation content) w = c) as Hres by (unfold result; by rewrite Hm).
  rewrite Hex, Hres. unfold published_since.
  destruct c as [[]|].
  - assert (exec (handleEventsAndData content) w
            = if online w
              then with_published
                     (λ l, l ++ [(CHANNEL_WHITEBOARD_EVENTS,
                                  stamped (update_event content wm) wm)]) wm
              else wm) as ->
      by (unfold exec; by rewrite (handleEventsAndData_run _ _ _ Hm), Hon).
    rewrite bool_decide_eq_true_2, andb_true_r by done.
    destruct (online w) eqn:Hw.
    + destruct (with_published_frame
                  (λ l, l ++ [(CHANNEL_WHITEBOARD_EVENTS,
                               stamped (update_event content wm) wm)]) wm)
        as [-> ->].
      split; [done|]. exists wm. split; [done|]. split; [done|].
      rewrite Hout, <- app_assoc, Hdrop, fmap_app.
      unfold stamped, update_event. cbn. rewrite Hid, Hnow.
      by destruct (seq_str _ _ && true).
    + split; [done|]. exists wm. split; [done|]. split; [done|].
      rewrite Hout, andb_false_r, app_nil_r.
      by rewrite drop_all.
  - assert (exec (handleEventsAndData content) w = wm) as ->
      by (unfold exec; by rewrite (handleEventsAndData_throw _ _ _ Hm)).
    rewrite bool_decide_eq_false_2, andb_false_r by done.
    split; [done|]. exists wm. split; [done|]. split; [done|].
    rewrite Hout, Hdrop, app_nil_r.
    by destruct (seq_str _ _ && online w).
Qed.


(** X13. Every message that a node publishes in [handleEventsAndData]
    is ignored when it comes back to the same node: handing them to
    [handleRemoteEvent] leaves the node as it is. *)
Theorem own_messages_are_ignored (w : World) (content : Action) :
  let w' := exec (handleEventsAndData content) w in
  receive_all (published_since w w') w' = w'
  ∧ ∀ message, message ∈ published_since w w' →
      ev_nodeId message = Some (nodeId (service w')).
Proof.
  cbv zeta.
  destruct (handleEventsAndData_messages content w)
    as (Hid & wm & _ & _ & Hmsgs).
  set (w' := exec (handleEventsAndData content) w) in *.
  assert (∀ message, message ∈ published_since w w' →
            ev_nodeId message = Some (nodeId (service w'))) as Hall.
  { intros message. rewrite Hmsgs, Hid, elem_of_app. intros [Hin|Hin].
    - destruct (seq_str _ _ && _); [|by apply not_elem_of_nil in Hin].
      by apply list_elem_of_singleton in Hin as ->.
    - destruct (online w && _); [|by apply not_elem_of_nil in Hin].
      by apply list_elem_of_singleton in Hin as ->. }
  split; [|done].
  revert Hall. generalize (published_since w w') as l.
  induction l as [|m l IH]; intros Hall; [done|].
  cbn [receive_all]. unfold exec.
  rewrite handleRemoteEvent_own_run by (apply Hall; left). cbn [snd].
  apply IH. intros message Hin. apply Hall. by right.
Qed.

Lemma own_messages_are_ignored_witness :
  let w := Sample.node true true {["board"%string := [Sample.pen "bob" "4" 2]]} ∅ in
  let content := Sample.command "clear" "board" "bob" in
  let w' := exec (handleEventsAndData content) w in
  length (published_since w w') = 2
  ∧ receive_all (published_since w w') w' = w'.
Proof.
  intros w content w'.
  destruct (own_messages_are_ignored w content) as [Hsame _].
  split; [reflexivity|exact Hsame].
Defined.





(* ===================================================================== *)
(** ** What a mutation leaves on the server *)
(* ===================================================================== *)





(** X16. A content whose tool [handleEventsAndData] does not know (or
    that has no tool) changes neither the cache nor the server, and yet,
    with the adapter online, an update event with the board's current
    cache entry is published for it. *)
Theorem unknown_tool_only_publishes (w : World) (content : Action) :
  known_tool (act_t content) = false →
  let wid := act_wid content in
  let w' := exec (handleEventsAndData content) w in
  result (handleEventsAndData content) w = Normal tt
  ∧ service w' = service w
  ∧ db (client (redisAdapter w')) = db (client (redisAdapter w))
  ∧ (online w = true →
     outbox w'
     = outbox w ++ [(CHANNEL_WHITEBOARD_EVENTS,
                     mkEvent "update" wid (act_t content)
                             (localCache (service w) !! to_key wid)
                             (Some content) (Some (nodeId (service w)))
                             (Some (now w)))])
  ∧ (online w = false → w' = w).
Proof.
  intros Hknown. cbv zeta.
  assert (mutation content w = (Normal tt, w)) as Hm.
  { unfold known_tool in Hknown. unfold mutation. cbv zeta.
    apply orb_false_iff in Hknown as [Hknown ->].
    apply orb_false_iff in Hknown as [Hknown ->].
    apply orb_false_iff in Hknown as [-> ->]. done. }
  unfold exec, result. rewrite (handleEventsAndData_run _ _ _ Hm).
  cbn [fst snd]. split; [done|].
  destruct (online w); [|done].
  repeat split; try done; by world w.
Qed.

Lemma unknown_tool_only_publishes_witness :
  let w := Sample.node true true {["board"%string := [Sample.pen "bob" "4" 2]]} ∅ in
  let content := Sample.command "cursor" "board" "ann" in
  let w' := exec (handleEventsAndData content) w in
  known_tool (act_t content) = false
  ∧ service w' = service w
  ∧ length (outbox w') = 1.
Proof.
  intros w content w'.
  destruct (unknown_tool_only_publishes w content eq_refl)
    as (_ & Hsame & _ & Hout & _).
  split; [reflexivity|]. split; [exact Hsame|].
  unfold w'. rewrite (Hout eq_refl). reflexivity.
Defined.

(* ===================================================================== *)
(** ** What the service never raises *)
(* ===================================================================== *)

Lemma initialize_run listener w :
  initialize listener w
  = if isConnected (redisAdapter w)
    then (Normal true,
          if link_up (client (redisAdapter w))
          then with_listeners
                 (λ ls, <[CHANNEL_WHITEBOARD_EVENTS :=
                            default [] (ls !! CHANNEL_WHITEBOARD_EVENTS) ++ [listener]]> ls)
                 (with_handlers (λ hs, <[CHANNEL_WHITEBOARD_EVENTS := listener]> hs) w)
          else with_handlers (λ hs, <[CHANNEL_WHITEBOARD_EVENTS := listener]> hs) w)
    else (Normal false, w).
Proof.
  unfold initialize, RedisAdapter.subscribe, Client.subscribe.
  world w. run. by destruct conn, up.
Qed.



(** X18. [initialize] returns whether the adapter is ready and looks at
    nothing else.  Not ready, it returns [false] and changes nothing.
    Ready, it returns [true] also when the subscription failed: with
    the link down no listener is registered for the events channel, and
    only the [handlers] map of the adapter has the listener; with the
    link up the listener is added to those of the channel. *)
Theorem initialize_reports_ready_only (w : World) (listener : handler) :
  let w' := exec (initialize listener) w in
  let before :=
    default [] (listeners (client (redisAdapter w)) !! CHANNEL_WHITEBOARD_EVENTS) in
  (isConnected (redisAdapter w) = false →
   initialize listener w = (Normal false, w))
  ∧ (isConnected (redisAdapter w) = true →
     result (initialize listener) w = Normal true
     ∧ handlers (redisAdapter w') !! CHANNEL_WHITEBOARD_EVENTS = Some listener
     ∧ (link_up (client (redisAdapter w)) = true →
        listeners (client (redisAdapter w')) !! CHANNEL_WHITEBOARD_EVENTS
        = Some (before ++ [listener]))
     ∧ (link_up (client (redisAdapter w)) = false →
        client (redisAdapter w') = client (redisAdapter w))).
Proof.
  cbv zeta. unfold exec, result. rewrite initialize_run.
  split; intros ->; [done|]. cbn [fst snd].
  split; [done|].
  split; [destruct (link_up _); world w; run; apply lookup_insert_eq|].
  split; intros ->; world w; run; [apply lookup_insert_eq|done].
Qed.

Lemma initialize_reports_ready_only_witness :
  let w := Sample.node true false ∅ ∅ in
  let w' := exec (initialize 4) w in
  isConnected (redisAdapter w) = true
  ∧ result (initialize 4) w = Normal true
  ∧ listeners (client (redisAdapter w')) = ∅.
Proof.
  intros w w'.
  destruct (initialize_reports_ready_only w 4) as [_ Hready].
  destruct (Hready eq_refl) as (Hret & _ & _ & Hdown).
  split; [reflexivity|]. split; [exact Hret|].
  unfold w'. rewrite (Hdown eq_refl). reflexivity.
Defined.

(* ===================================================================== *)
(** ** A textbox-text action without payload *)
(* ===================================================================== *)

Lemma filter_board_no_textbox content (l : list Action) :
  (∀ item, item ∈ l → act_t item ≠ Some "setTextboxText"%string) →
  filter_board (keep_item content) l = Normal l.
Proof.
  induction l as [|item l IH]; intros Hl; [done|].
  cbn [filter_board]. unfold keep_item at 1, seq_str.
  rewrite bool_decide_eq_false_2 by (apply Hl; left).
  rewrite IH; [done|]. intros y Hy. apply Hl. by right.
Qed.

Lemma filter_board_throws content (l : list Action) bad :
  bad ∈ l → act_t bad = Some "setTextboxText"%string → act_d bad = None →
  filter_board (keep_item content) l = Throw.
Proof.
  intros Hin Ht Hd. induction l as [|item l IH]; [by apply not_elem_of_nil in Hin|].
  cbn [filter_board].
  destruct (keep_item content item) as [k|] eqn:Hk; [|done].
  apply elem_of_cons in Hin as [<-|Hin].
  - unfold keep_item, seq_str in Hk.
    rewrite bool_decide_eq_true_2, Hd in Hk by done. done.
  - by rewrite IH.
Qed.

(** X19. A textbox-text action without a payload array is accepted on a
    board that holds no textbox-text action: [saveDrawingAction] returns
    and stores it.  From then on every textbox-text action for that
    board, well formed or not, makes [handleEventsAndData] throw when it
    reads the payload of the stored one: nothing is appended, saved or
    published, and the state is as before the call. *)
Theorem textbox_without_payload_blocks_board (w : World) (wid : option string)
    (bad : Action) (savedBoard : list Action) :
  result (loadStoredData wid) w = Normal savedBoard →
  (∀ item, item ∈ savedBoard → act_t item ≠ Some "setTextboxText"%string) →
  act_t bad = Some "setTextboxText"%string →
  act_d bad = None →
  let w1 := exec (saveDrawingAction wid bad) w in
  result (saveDrawingAction wid bad) w = Normal tt
  ∧ result (loadStoredData wid) w1 = Normal (savedBoard ++ [strip_wid bad])
  ∧ ∀ content,
      act_t content = Some "setTextboxText"%string → act_wid content = wid →
      handleEventsAndData content w1 = (Throw, w1).
Proof.
  intros Hload Hnone Ht Hd. cbv zeta.
  rewrite loadStoredData_result in Hload. injection Hload as Hb.
  assert (saveDrawingAction wid bad w
          = (Normal tt, store_board wid (savedBoard ++ [strip_wid bad]) w)) as Hrun.
  { rewrite saveDrawingAction_run. unfold kept, seq_str.
    rewrite bool_decide_eq_true_2 by done.
    by rewrite Hb, filter_board_no_textbox. }
  unfold exec, result. rewrite Hrun. cbn [fst snd].
  set (w1 := store_board _ _ w).
  assert (board wid w1 = savedBoard ++ [strip_wid bad]) as Hb1
    by apply board_store_board.
  split; [done|]. split; [by rewrite loadStoredData_run, Hb1|].
  intros content Htool <-.
  apply handleEventsAndData_throw. unfold mutation. cbv zeta. rewrite Htool.
  change (seq_str (Some "setTextboxText"%string) (Some "clear"%string)) with false.
  change (seq_str (Some "setTextboxText"%string) (Some "undo"%string)) with false.
  change (seq_str (Some "setTextboxText"%string) (Some "redo"%string)) with false.
  change (isDrawingTool (Some "setTextboxText"%string)) with true.
  cbv iota. rewrite saveDrawingAction_run. unfold kept, seq_str.
  rewrite bool_decide_eq_true_2 by done.
  rewrite Hb1, (filter_board_throws content _ (strip_wid bad));
    [|set_solver|done|done].
  f_equal. subst w1. unfold store_board. world w. run.
  by rewrite insert_insert_eq.
Qed.

Lemma textbox_without_payload_blocks_board_witness :
  let w := Sample.node true true {["board"%string := [Sample.pen "bob" "4" 2]]} ∅ in
  let bad := mkAction Sample.B (Some "setTextboxText"%string) Sample.U None None [] in
  let w1 := exec (saveDrawingAction Sample.B bad) w in
  let content := Sample.text "board" "bob" "tx1" "hello" in
  result (saveDrawingAction Sample.B bad) w = Normal tt
  ∧ handleEventsAndData content w1 = (Throw, w1).
Proof.
  intros w bad w1 content.
  assert (result (loadStoredData Sample.B) w = Normal [Sample.pen "bob" "4" 2])
    as Hload by (vm_compute; reflexivity).
  assert (∀ item, item ∈ [Sample.pen "bob" "4" 2] →
                  act_t item ≠ Some "setTextboxText"%string) as Hnone.
  { intros item Hin. apply list_elem_of_singleton in Hin as ->. discriminate. }
  destruct (textbox_without_payload_blocks_board w Sample.B bad _
              Hload Hnone eq_refl eq_refl) as (Hok & _ & Hblock).
  split; [exact Hok|]. exact (Hblock content eq_refl eq_refl).
Defined.

(* ===================================================================== *)
(** ** What undo and redo keep *)
(* ===================================================================== *)

Lemma most_recent_none username (l : list Action) :
  (∀ a, a ∈ l → act_username a ≠ username) → most_recent username l = None.
Proof.
  intros Hl. unfold most_recent. by rewrite (filter_none (owned_by username)).
Qed.

(** The two arrays after the loops hold the actions they held before. *)
Lemma moved_perm username (from to : list Action) :
  (moved username from to).1 ++ (moved username from to).2 ≡ₚ from ++ to.
Proof.
  unfold moved. destruct (most_recent username from) as [a|]; [|done].
  cbn [fst snd]. unfold others, group.
  rewrite reverse_Permutation.
  rewrite (Permutation_app_comm to), app_assoc.
  apply Permutation_app_tail.
  rewrite Permutation_app_comm. apply filter_app_complement.
Qed.

Lemma moved_length username (from to : list Action) :
  length (moved username from to).1 ≤ length from.
Proof.
  unfold moved. destruct (most_recent username from) as [a|]; [|done].
  apply length_filter.
Qed.

(** X20. An undo by a user who owns no action of the board leaves the
    board as it is, and a redo by a user who has no entry on the stack
    leaves the board and the stack as they are.  The undo still saves
    the stack, cut to its newest 1000 entries. *)
Theorem undo_redo_without_own_entries (w : World)
    (wid username : option string) (savedBoard undoStack : list Action) :
  result (loadStoredData wid) w = Normal savedBoard →
  result (getUndoStack wid) w = Normal undoStack →
  ((∀ a, a ∈ savedBoard → act_username a ≠ username) →
   let w' := exec (handleUndo wid username) w in
   result (loadStoredData wid) w' = Normal savedBoard
   ∧ (online w = true →
      result (getUndoStack wid) w' = Normal (limit_stack undoStack)))
  ∧ ((∀ a, a ∈ undoStack → act_username a ≠ username) →
     let w' := exec (handleRedo wid username) w in
     result (loadStoredData wid) w' = Normal savedBoard
     ∧ result (getUndoStack wid) w' = Normal undoStack).
Proof.
  intros Hload Hstack.
  rewrite loadStoredData_result in Hload. injection Hload as Hb.
  rewrite getUndoStack_result in Hstack. injection Hstack as Hs.
  split; intros Hnone; cbv zeta.
  - assert (moved username (board wid w) (undo_stack wid w)
            = (savedBoard, undoStack)) as Hmv
      by (unfold moved; by rewrite Hb, Hs, most_recent_none).
    split.
    + by rewrite loadStoredData_result, handleUndo_board, Hmv.
    + intros Hon. by rewrite getUndoStack_result, handleUndo_stack, Hmv.
  - assert (moved username (undo_stack wid w) (board wid w)
            = (undoStack, savedBoard)) as Hmv
      by (unfold moved; by rewrite Hb, Hs, most_recent_none).
    split.
    + by rewrite loadStoredData_result, handleRedo_board, Hmv.
    + rewrite getUndoStack_result, handleRedo_exec, undo_stack_commit, Hmv.
      cbn [fst]. rewrite <- Hs. unfold undo_stack. by destruct (online w).
Qed.

Lemma undo_redo_without_own_entries_witness :
  let w := Sample.node true true
             {["board"%string := [Sample.pen "bob" "4" 2]]}
             {["whiteboard:undo:board"%string := EList [Sample.pen "bob" "3" 1]]} in
  result (loadStoredData Sample.B) (exec (handleUndo Sample.B Sample.U) w)
  = Normal [Sample.pen "bob" "4" 2]
  ∧ result (getUndoStack Sample.B) (exec (handleRedo Sample.B Sample.U) w)
    = Normal [Sample.pen "bob" "3" 1].
Proof.
  intros w.
  assert (result (loadStoredData Sample.B) w = Normal [Sample.pen "bob" "4" 2])
    as Hload by (vm_compute; reflexivity).
  assert (result (getUndoStack Sample.B) w = Normal [Sample.pen "bob" "3" 1])
    as Hstack by (vm_compute; reflexivity).
  destruct (undo_redo_without_own_entries w Sample.B Sample.U _ _ Hload Hstack)
    as [Hundo Hredo].
  split.
  - apply Hundo. intros a Hin. apply list_elem_of_singleton in Hin as ->. discriminate.
  - apply Hredo. intros a Hin. apply list_elem_of_singleton in Hin as ->. discriminate.
Defined.

(** X21. With the adapter online, undo and redo only move actions
    between the board and the undo stack.  After a redo the board and
    the stack together hold exactly the actions they held before, and
    the stack is not longer.  The same holds after an undo as long as
    the board and the stack together hold at most 1000 actions, so that
    nothing is cut; the board is then not longer. *)
Theorem undo_redo_conserve_actions (w : World) (wid username : option string)
    (savedBoard undoStack : list Action) :
  online w = true →
  result (loadStoredData wid) w = Normal savedBoard →
  result (getUndoStack wid) w = Normal undoStack →
  (let w' := exec (handleRedo wid username) w in
   ∃ b' s', result (loadStoredData wid) w' = Normal b'
            ∧ result (getUndoStack wid) w' = Normal s'
            ∧ b' ++ s' ≡ₚ savedBoard ++ undoStack
            ∧ length s' ≤ length undoStack)
  ∧ (length savedBoard + length undoStack ≤ 1000 →
     let w' := exec (handleUndo wid username) w in
     ∃ b' s', result (loadStoredData wid) w' = Normal b'
              ∧ result (getUndoStack wid) w' = Normal s'
              ∧ b' ++ s' ≡ₚ savedBoard ++ undoStack
              ∧ length b' ≤ length savedBoard).
Proof.
  intros Hon Hload Hstack.
  rewrite loadStoredData_result in Hload. injection Hload as Hb.
  rewrite getUndoStack_result in Hstack. injection Hstack as Hs.
  split; [|intros Hsmall]; cbv zeta.
  - eexists _, _.
    split; [by rewrite loadStoredData_result, handleRedo_board|].
    split; [by rewrite getUndoStack_result, handleRedo_stack|].
    rewrite Hb, Hs. split; [|apply moved_length].
    rewrite Permutation_app_comm, moved_perm. apply Permutation_app_comm.
  - eexists _, _.
    split; [by rewrite loadStoredData_result, handleUndo_board|].
    split; [by rewrite getUndoStack_result, handleUndo_stack|].
    rewrite Hb, Hs. split; [|apply moved_length].
    rewrite limit_stack_small; [apply moved_perm|].
    pose proof (moved_perm username savedBoard undoStack) as Hp.
    apply Permutation_length in Hp. rewrite !length_app in Hp. lia.
Qed.

Lemma undo_redo_conserve_actions_witness :
  let w := Sample.node true true
             {["board"%string := [Sample.pen "bob" "4" 2; Sample.pen "ann" "7" 5]]}
             {["whiteboard:undo:board"%string := EList [Sample.pen "ann" "6" 1]]} in
  online w = true
  ∧ ∃ b' s',
      result (loadStoredData Sample.B) (exec (handleUndo Sample.B Sample.U) w)
      = Normal b'
      ∧ result (getUndoStack Sample.B) (exec (handleUndo Sample.B Sample.U) w)
        = Normal s'
      ∧ b' ++ s' ≡ₚ [Sample.pen "bob" "4" 2; Sample.pen "ann" "7" 5]
                     ++ [Sample.pen "ann" "6" 1].
Proof.
  intros w.
  assert (result (loadStoredData Sample.B) w
          = Normal [Sample.pen "bob" "4" 2; Sample.pen "ann" "7" 5]) as Hload
    by (vm_compute; reflexivity).
  assert (result (getUndoStack Sample.B) w = Normal [Sample.pen "ann" "6" 1])
    as Hstack by (vm_compute; reflexivity).
  destruct (undo_redo_conserve_actions w Sample.B Sample.U _ _ eq_refl Hload Hstack)
    as [_ Hundo].
  destruct Hundo as (b' & s' & Hb' & Hs' & Hperm & _); [simpl; lia|].
  split; [reflexivity|]. exists b', s'. auto.
Defined.

(* ===================================================================== *)
(** ** Where stored actions come from *)
(* ===================================================================== *)

Lemma board_published f wid w : board wid (with_published f w) = board wid w.
Proof. by world w. Qed.

Lemma undo_stack_published f wid w :
  undo_stack wid (with_published f w) = undo_stack wid w.
Proof. by world w. Qed.

Lemma board_cleared wid w : board wid (cleared wid w) = [].
Proof.
  unfold board. rewrite cache_cleared, lookup_delete_eq, online_cleared.
  destruct (online w) eqn:Hon; [|done].
  unfold stored_list, cleared. world w. run. rewrite Hon. cbn.
  rewrite lookup_delete_ne, lookup_delete_eq; [done|].
  intros Heq. symmetry in Heq. by apply data_key_ne_undo_key in Heq.
Qed.

Lemma undo_stack_cleared wid w : undo_stack wid (cleared wid w) = [].
Proof.
  unfold undo_stack. rewrite online_cleared.
  destruct (online w) eqn:Hon; [|done].
  unfold stored_list, cleared. world w. run. rewrite Hon. cbn.
  by rewrite lookup_delete_eq.
Qed.

Lemma filter_board_subset keep (l l' : list Action) :
  filter_board keep l = Normal l' → ∀ x, x ∈ l' → x ∈ l.
Proof.
  revert l'. induction l as [|item l IH]; intros l' Hf x Hx.
  - by injection Hf as <-.
  - cbn [filter_board] in Hf.
    destruct (keep item) as [k|]; [|done].
    destruct (filter_board keep l) as [rest|]; [|done].
    injection Hf as <-. destruct k.
    + apply elem_of_cons in Hx as [->|Hx]; [by left|].
      right. by apply (IH rest eq_refl).
    + right. by apply (IH rest eq_refl).
Qed.

Lemma moved_subset username (from to : list Action) x :
  x ∈ (moved username from to).1 ∨ x ∈ (moved username from to).2 →
  x ∈ from ∨ x ∈ to.
Proof.
  rewrite <- !elem_of_app. by rewrite (moved_perm username from to).
Qed.

Lemma limit_stack_subset (s : list Action) x : x ∈ limit_stack s → x ∈ s.
Proof.
  unfold limit_stack. case_bool_decide; [|done].
  intros Hx. by apply (subseteq_drop (length s - 1000)).
Qed.

(** What the mutating branch leaves on the board and on the stack was
    there before, apart from the content it was given. *)
Lemma mutation_sources content w :
  let wid := act_wid content in
  ∃ c wm, mutation content w = (c, wm)
    ∧ (∀ x, x ∈ board wid wm →
         x ∈ board wid w ∨ x ∈ undo_stack wid w ∨ x = strip_wid content)
    ∧ (∀ x, x ∈ undo_stack wid wm → x ∈ board wid w ∨ x ∈ undo_stack wid w).
Proof.
  cbv zeta. unfold mutation. cbv zeta.
  destruct (seq_str (act_t content) (Some "clear"%string)).
  { eexists _, _. split; [apply clearWhiteboard_run|].
    rewrite board_cleared, undo_stack_cleared.
    split; intros x Hx; by apply not_elem_of_nil in Hx. }
  destruct (seq_str (act_t content) (Some "undo"%string)).
  { eexists _, _. split; [apply handleUndo_run|]. cbv zeta.
    rewrite board_commit, undo_stack_commit. split; intros x Hx.
    - destruct (moved_subset (act_username content) _ _ x (or_introl Hx)); auto.
    - destruct (online w); [|by apply not_elem_of_nil in Hx].
      apply limit_stack_subset in Hx.
      by apply (moved_subset (act_username content)); right. }
  destruct (seq_str (act_t content) (Some "redo"%string)).
  { eexists _, _. split; [apply handleRedo_run|]. cbv zeta.
    rewrite board_commit, undo_stack_commit. split; intros x Hx.
    - destruct (moved_subset (act_username content) _ _ x (or_intror Hx)); auto.
    - destruct (online w); [|by apply not_elem_of_nil in Hx].
      destruct (moved_subset (act_username content) _ _ x (or_introl Hx)); auto. }
  destruct (isDrawingTool (act_t content)); [|eexists _, _; split; [done|]; auto].
  rewrite saveDrawingAction_run.
  destruct (kept content (board (act_wid content) w)) as [b|] eqn:Hkept.
  - eexists _, _. split; [done|].
    rewrite board_store_board, undo_stack_store_board. split; [|auto].
    intros x Hx. apply elem_of_app in Hx as [Hx|Hx].
    + left. unfold kept in Hkept. destruct (seq_str _ _).
      * by apply (filter_board_subset _ _ _ Hkept).
      * by injection Hkept as <-.
    + apply list_elem_of_singleton in Hx. auto.
  - eexists _, _. split; [done|].
    rewrite board_cache_insert, undo_stack_cache. auto.
Qed.

(** X22. [handleEventsAndData] invents no action and stores no board
    id.  Every action that is on the board or on the undo stack of the
    content's board afterwards was on that board or stack before, or is
    the content itself without its board id.  So when no action of the
    board and of the stack carries a board id, none does afterwards. *)
Theorem stored_actions_carry_no_board_id (w : World) (content : Action) :
  let wid := act_wid content in
  let w' := exec (handleEventsAndData content) w in
  (∀ x, x ∈ board wid w' ∨ x ∈ undo_stack wid w' →
     x ∈ board wid w ∨ x ∈ undo_stack wid w ∨ x = strip_wid content)
  ∧ (no_board_id (board wid w) → no_board_id (undo_stack wid w) →
     no_board_id (board wid w') ∧ no_board_id (undo_stack wid w')).
Proof.
  cbv zeta.
  destruct (mutation_sources content w) as (c & wm & Hm & Hboard & Hstack).
  assert (board (act_wid content) (exec (handleEventsAndData content) w)
          = board (act_wid content) wm
          ∧ undo_stack (act_wid content) (exec (handleEventsAndData content) w)
            = undo_stack (act_wid content) wm) as [-> ->].
  { unfold exec. destruct c as [[]|].
    - rewrite (handleEventsAndData_run _ _ _ Hm). cbn [snd].
      destruct (online wm); [|done].
      by rewrite board_published, undo_stack_published.
    - by rewrite (handleEventsAndData_throw _ _ _ Hm). }
  assert (∀ x, x ∈ board (act_wid content) wm ∨ x ∈ undo_stack (act_wid content) wm →
            x ∈ board (act_wid content) w ∨ x ∈ undo_stack (act_wid content) w
            ∨ x = strip_wid content) as Hfrom.
  { intros x [Hx|Hx]; [by apply Hboard|]. destruct (Hstack x Hx); auto. }
  split; [done|].
  intros Hb Hs.
  assert (∀ x, x ∈ board (act_wid content) wm ∨ x ∈ undo_stack (act_wid content) wm →
            act_wid x = None) as Hnone.
  { intros x Hx. destruct (Hfrom x Hx) as [Hin|[Hin| ->]];
      [by apply Hb|by apply Hs|done]. }
  split; intros x Hx; apply Hnone; auto.
Qed.

Lemma stored_actions_carry_no_board_id_witness :
  let w := Sample.node true true {["board"%string := [Sample.pen "bob" "4" 2]]} ∅ in
  let content := Sample.draw "board" "ann" "7" 5 in
  let w' := exec (handleEventsAndData content) w in
  act_wid content = Sample.B
  ∧ no_board_id (board Sample.B w').
Proof.
  intros w content w'.
  destruct (stored_actions_carry_no_board_id w content) as [_ Hinv].
  split; [reflexivity|].
  apply Hinv.
  - intros a Ha. change (a ∈ [Sample.pen "bob" "4" 2]) in Ha.
    by apply list_elem_of_singleton in Ha as ->.
  - intros a Ha. change (a ∈ []) in Ha. by apply not_elem_of_nil in Ha.
Defined.

(* ===================================================================== *)
(** ** The metrics of a node *)
(* ===================================================================== *)

Module MetricsFacts.
Import MetricsService.

Lemma step_connections_consistent now c m :
  connections_consistent m → connections_consistent (step now c m).
Proof.
  unfold connections_consistent. destruct c; cbn; lia.
Qed.

Lemma run_connections_consistent history m :
  connections_consistent m → connections_consistent (run history m).
Proof.
  revert m. induction history as [|[now c] history IH]; intros m Hm; [done|].
  cbn [run]. by apply IH, step_connections_consistent.
Qed.

(** X23. Whatever calls are made on a new metrics service, in whatever
    order, the number of active connections is never negative and never
    above the number of connections opened, and the connections opened
    never exceed the active ones plus the disconnections counted.  A
    close that finds no active connection leaves the active count at 0
    and still counts a disconnection. *)
Theorem metrics_connections_consistent (start later : Z)
    (history : list (Z * call)) :
  let m := run history (constructor start later) in
  (0 ≤ activeConnections m)%Z
  ∧ (activeConnections m ≤ totalConnections m)%Z
  ∧ (totalConnections m ≤ activeConnections m + totalDisconnections m)%Z
  ∧ ∀ now,
      activeConnections m = 0%Z →
      activeConnections (step now connectionClosed m) = 0%Z
      ∧ totalDisconnections (step now connectionClosed m)
        = (totalDisconnections m + 1)%Z.
Proof.
  cbv zeta.
  destruct (run_connections_consistent history (constructor start later))
    as (H0 & H1 & H2); [unfold connections_consistent; cbn; lia|].
  repeat split; try done; cbn; lia.
Qed.

Lemma metrics_connections_consistent_witness :
  let m := run [(1700000000005%Z, connectionClosed)]
               (constructor 1700000000000 1700000000000) in
  activeConnections m = 0%Z
  ∧ activeConnections (step 1700000000009 connectionClosed m) = 0%Z
  ∧ totalDisconnections (step 1700000000009 connectionClosed m) = 2%Z.
Proof.
  intros m.
  destruct (metrics_connections_consistent 1700000000000 1700000000000
              [(1700000000005%Z, connectionClosed)]) as (_ & _ & _ & Hclose).
  destruct (Hclose 1700000000009%Z eq_refl) as [Hactive Htotal].
  split; [reflexivity|]. split; [exact Hactive|exact Htotal].
Defined.

Lemma step_counters_le now c m : counters_le m (step now c m).
Proof. unfold counters_le. destruct c; cbn; lia. Qed.

(** X24. The counters that the service exports as Prometheus counters
    never go down and the start time never changes, from any state and
    under any calls; so the uptime read at a given time does not depend
    on the calls made. *)
Theorem metrics_counters_monotone (m : Metrics) (history : list (Z * call)) :
  counters_le m (run history m)
  ∧ ∀ now, getUptime now (run history m) = getUptime now m.
Proof.
  assert (counters_le m (run history m)) as Hle.
  { revert m. induction history as [|[now c] history IH]; intros m.
    - cbn [run]. unfold counters_le. lia.
    - cbn [run]. specialize (IH (step now c m)).
      pose proof (step_counters_le now c m) as Hs.
      unfold counters_le in *. lia. }
  split; [done|]. intros now. unfold getUptime.
  destruct Hle as (_ & _ & _ & _ & _ & _ & _ & _ & _ & _ & <-). done.
Qed.

Lemma set_add_spec x y (s : list string) : y ∈ set_add x s ↔ y = x ∨ y ∈ s.
Proof.
  unfold set_add. case_bool_decide as Hx.
  - split; [auto|]. by intros [->|].
  - rewrite elem_of_app, list_elem_of_singleton. tauto.
Qed.

Lemma set_add_NoDup x (s : list string) : NoDup s → NoDup (set_add x s).
Proof.
  intros Hs. unfold set_add. case_bool_decide; [done|].
  apply NoDup_app. split; [done|]. split; [|apply NoDup_singleton].
  intros y Hy Hx. apply list_elem_of_singleton in Hx as ->. done.
Qed.

Lemma set_add_prefix x (s : list string) : s `prefix_of` set_add x s.
Proof.
  unfold set_add. case_bool_decide; [done|]. by apply prefix_app_r.
Qed.

Lemma step_boards now c m :
  activeWhiteboards (step now c m)
  = match c with
    | whiteboardJoined wid => set_add wid (activeWhiteboards m)
    | _ => activeWhiteboards m
    end.
Proof. by destruct c. Qed.

Lemma run_boards history m :
  NoDup (activeWhiteboards m) →
  NoDup (activeWhiteboards (run history m))
  ∧ activeWhiteboards m `prefix_of` activeWhiteboards (run history m)
  ∧ ∀ wid, wid ∈ activeWhiteboards (run history m)
           ↔ wid ∈ activeWhiteboards m
             ∨ ∃ now, (now, whiteboardJoined wid) ∈ history.
Proof.
  revert m. induction history as [|[now c] history IH]; intros m Hm.
  - cbn [run]. split; [done|]. split; [done|].
    intros wid. split; [auto|]. intros [|[t Ht]]; [done|].
    by apply not_elem_of_nil in Ht.
  - cbn [run].
    assert (NoDup (activeWhiteboards (step now c m))) as Hstep.
    { rewrite step_boards. destruct c; try done. by apply set_add_NoDup. }
    destruct (IH _ Hstep) as (Hnd & Hpre & Hmem).
    split; [done|]. split.
    + etransitivity; [|exact Hpre]. rewrite step_boards.
      destruct c; try done. apply set_add_prefix.
    + intros wid. rewrite Hmem, step_boards.
      assert (∀ t, (t, whiteboardJoined wid) ∈ (now, c) :: history
                   ↔ c = whiteboardJoined wid ∧ t = now
                     ∨ (t, whiteboardJoined wid) ∈ history) as Hcons.
      { intros t. rewrite elem_of_cons. split; intros [H|H]; auto.
        - injection H as -> ->. auto.
        - destruct H as [-> ->]. auto. }
      split.
      * intros [Hin|[t Ht]]; [|right; exists t; apply Hcons; auto].
        destruct c; auto.
        apply set_add_spec in Hin as [->|Hin]; [|auto].
        right. exists now. apply Hcons. auto.
      * intros [Hin|[t Ht]].
        -- left. destruct c; auto. apply set_add_spec. auto.
        -- apply Hcons in Ht as [[-> ->]|Ht]; [|eauto].
           left. apply set_add_spec. auto.
Qed.

(** X25. The boards of the metrics only accumulate.  From a new service
    and under any calls, the set holds exactly the boards that were
    joined, each once, in the order in which they were first joined:
    leaving a board removes nothing.  [getJsonMetrics] reports their
    number and lists the first ten of them. *)
Theorem metrics_boards_accumulate (start later : Z) (history : list (Z * call))
    (now : Z) (nodeId : option string) :
  let m := run history (constructor start later) in
  let json := getJsonMetrics now nodeId m in
  NoDup (activeWhiteboards m)
  ∧ (∀ wid, wid ∈ activeWhiteboards m
            ↔ ∃ at_time, (at_time, whiteboardJoined wid) ∈ history)
  ∧ (∀ more, activeWhiteboards m
             `prefix_of` activeWhiteboards (run more m))
  ∧ json_whiteboards_active json = length (activeWhiteboards m)
  ∧ json_whiteboards_list json `prefix_of` activeWhiteboards m
  ∧ length (json_whiteboards_list json) = Nat.min 10 (length (activeWhiteboards m)).
Proof.
  cbv zeta.
  destruct (run_boards history (constructor start later)) as (Hnd & _ & Hmem);
    [apply NoDup_nil_2|].
  split; [done|]. split; [|split; [|split; [done|split]]].
  - intros wid. rewrite Hmem. split; [|auto].
    intros [Hin|]; [|done]. by apply not_elem_of_nil in Hin.
  - intros more. by destruct (run_boards more _ Hnd) as (_ & Hpre & _).
  - cbn [getJsonMetrics json_whiteboards_list]. apply prefix_take.
  - cbn [getJsonMetrics json_whiteboards_list]. apply length_take.
Qed.


End MetricsFacts.

(* ===================================================================== *)
(** ** One board at a time *)
(* ===================================================================== *)

Lemma append_prefix_inj (prefix a b : string) :
  prefix +:+ a = prefix +:+ b → a = b.
Proof.
  induction prefix as [|ch prefix IH]; [done|].
  cbn. intros [= H]. by apply IH.
Qed.

(** The mutating branch touches the cache entry of its board and the two
    keys of its board on the server, and nothing else of them. *)
Lemma mutation_frame content w :
  let wid := act_wid content in
  ∃ c wm, mutation content w = (c, wm)
    ∧ (∀ k, k ≠ to_key wid →
         localCache (service wm) !! k = localCache (service w) !! k)
    ∧ (∀ key, key ≠ WHITEBOARD_PREFIX +:+ to_key wid →
              key ≠ UNDO_PREFIX +:+ to_key wid →
         db (client (redisAdapter wm)) !! key = db (client (redisAdapter w)) !! key).
Proof.
  cbv zeta.
  assert (∀ b s, (∀ k, k ≠ to_key (act_wid content) →
              localCache (service (commit (act_wid content) b s w)) !! k
              = localCache (service w) !! k)
            ∧ (∀ key, key ≠ WHITEBOARD_PREFIX +:+ to_key (act_wid content) →
                      key ≠ UNDO_PREFIX +:+ to_key (act_wid content) →
                 db (client (redisAdapter (commit (act_wid content) b s w))) !! key
                 = db (client (redisAdapter w)) !! key)) as Hcommit.
  { intros b s. split.
    - intros k Hk. by rewrite cache_commit, lookup_insert_ne.
    - intros key Hd Hu. unfold commit. world w. run.
      destruct (conn && up); [|done].
      by rewrite !replaced_lookup_ne. }
  unfold mutation. cbv zeta.
  destruct (seq_str (act_t content) (Some "clear"%string)).
  { eexists _, _. split; [apply clearWhiteboard_run|]. split.
    - intros k Hk. by rewrite cache_cleared, lookup_delete_ne.
    - intros key Hd Hu. unfold cleared. world w. run.
      destruct (conn && up); cbn; [|done].
      by rewrite !lookup_delete_ne. }
  destruct (seq_str (act_t content) (Some "undo"%string)).
  { eexists _, _. split; [apply handleUndo_run|]. apply Hcommit. }
  destruct (seq_str (act_t content) (Some "redo"%string)).
  { eexists _, _. split; [apply handleRedo_run|]. apply Hcommit. }
  destruct (isDrawingTool (act_t content)); [|by eexists _, _].
  rewrite saveDrawingAction_run.
  destruct (kept content (board (act_wid content) w)) as [b|].
  - eexists _, _. split; [done|]. split.
    + intros k Hk. by rewrite cache_store_board, lookup_insert_ne.
    + intros key Hd Hu. unfold store_board. world w. run.
      destruct (conn && up); [|done].
      by rewrite replaced_lookup_ne.
  - eexists _, _. split; [done|]. split.
    + intros k Hk. world w. run. by rewrite lookup_insert_ne.
    + intros key _ _. by world w.
Qed.

(** X26. Boards are kept apart.  Whatever content [handleEventsAndData]
    handles for one board, in whatever state, every other board keeps
    its cache entry, its stored action list and its stored undo stack:
    loading it and reading its undo stack give what they gave before. *)
Theorem other_boards_untouched (w : World) (content : Action)
    (other : option string) :
  to_key other ≠ to_key (act_wid content) →
  let w' := exec (handleEventsAndData content) w in
  localCache (service w') !! to_key other = localCache (service w) !! to_key other
  ∧ result (loadStoredData other) w' = result (loadStoredData other) w
  ∧ result (getUndoStack other) w' = result (getUndoStack other) w.
Proof.
  intros Hother. cbv zeta.
  destruct (mutation_frame content w) as (c & wm & Hm & Hcache & Hdb).
  destruct (mutation_any content w) as (c' & wm' & Hm' & Hon & _).
  rewrite Hm in Hm'. injection Hm' as <- <-.
  assert (∀ prefix, (prefix = WHITEBOARD_PREFIX ∨ prefix = UNDO_PREFIX) →
            db (client (redisAdapter wm)) !! (prefix +:+ to_key other)
            = db (client (redisAdapter w)) !! (prefix +:+ to_key other)) as Hkeys.
  { intros prefix Hp. apply Hdb; intros Heq.
    - destruct Hp as [-> | ->].
      + by apply append_prefix_inj in Heq.
      + symmetry in Heq. by apply data_key_ne_undo_key in Heq.
    - destruct Hp as [-> | ->].
      + by apply data_key_ne_undo_key in Heq.
      + by apply append_prefix_inj in Heq. }
  assert (board other wm = board other w ∧ undo_stack other wm = undo_stack other w)
    as [Hb Hs].
  { unfold board, undo_stack, stored_list.
    by rewrite Hcache, Hon, !Hkeys by auto. }
  assert (exec (handleEventsAndData content) w = wm
          ∨ ∃ f, exec (handleEventsAndData content) w = with_published f wm)
    as Hw'.
  { unfold exec. destruct c as [[]|].
    - rewrite (handleEventsAndData_run _ _ _ Hm). cbn [snd].
      destruct (online wm); eauto.
    - rewrite (handleEventsAndData_throw _ _ _ Hm). auto. }
  rewrite !loadStoredData_result, !getUndoStack_result.
  destruct Hw' as [-> | [f ->]].
  - by rewrite Hcache, Hb, Hs.
  - rewrite board_published, undo_stack_published, Hb, Hs.
    destruct (with_published_frame f wm) as [-> _]. by rewrite Hcache.
Qed.

Lemma other_boards_untouched_witness :
  let w := Sample.node true true
             {["board"%string := [Sample.pen "bob" "4" 2];
               "notes"%string := [Sample.pen "ann" "1" 1]]}
             {["whiteboard:undo:notes"%string := EList [Sample.pen "ann" "2" 3]]} in
  let content := Sample.command "clear" "board" "bob" in
  let w' := exec (handleEventsAndData content) w in
  to_key (Some "notes"%string) ≠ to_key (act_wid content)
  ∧ result (loadStoredData (Some "notes"%string)) w' = Normal [Sample.pen "ann" "1" 1]
  ∧ result (getUndoStack (Some "notes"%string)) w' = Normal [Sample.pen "ann" "2" 3].
Proof.
  intros w content w'.
  assert (to_key (Some "notes"%string) ≠ to_key (act_wid content)) as Hother
    by discriminate.
  destruct (other_boards_untouched w content (Some "notes"%string) Hother)
    as (_ & Hload & Hstack).
  split; [exact Hother|]. split.
  - etransitivity; [exact Hload|]. vm_compute. reflexivity.
  - etransitivity; [exact Hstack|]. vm_compute. reflexivity.
Defined.

